(** * Monthly Budget Calculator: the record store and its aggregates

    A shallow embedding of [budget.py].  The Streamlit script is one
    top-to-bottom pass over [st.session_state]: the sidebar handlers mutate
    the two lists held there, then the aggregates are recomputed and the
    dashboard is rendered from them.  Here the session state is a record that
    the handlers take and return, the aggregates are functions of it, and the
    rendered dashboard is a value.

    Amounts.  The script holds them as Python floats, that is binary64
    numbers.  The development has two layers.  The first takes the amounts
    as exact rationals; it carries what depends on the guards, the gates, the
    branches and the order of the rows, and states about numbers only what
    rounding cannot change.  The second, [Binary64], repeats the store and
    its sums on binary64 numbers, with the additions the script performs; it
    carries what depends on the value of a sum. *)

From Stdlib Require Import QArith Qabs List String Ascii Bool Lia.
From Stdlib Require Import Permutation Sorted.
From Stdlib Require Import PeanoNat.
From Stdlib Require Import Lqa.
From Stdlib Require Import PrimFloat SpecFloat FloatOps.
Import ListNotations.

Open Scope Q_scope.

(* A decimal literal of the script denotes the nearest binary64 number, as in
   Python. *)
Set Warnings "-inexact-float".

(** ** Numbers and truthiness *)

(** [a > b] and [a < b] of the script, as booleans. *)
Definition Qgt_bool (a b : Q) : bool := negb (Qle_bool a b).
Definition Qlt_bool (a b : Q) : bool := negb (Qle_bool b a).

(** Python's truth value of a [str]: false exactly for the empty string. *)
Definition str_truthy (s : string) : bool :=
  match s with
  | EmptyString => false
  | String _ _ => true
  end.

(** Python's truth value of a list: false exactly for the empty list. *)
Definition list_truthy {A : Type} (l : list A) : bool :=
  match l with
  | [] => false
  | _ :: _ => true
  end.

(** Python's [sum(iterable)]: starts from [0] and adds from the left. *)
Definition py_sum (l : list Q) : Q := fold_left Qplus l 0.

(** The mathematical sum of a list of amounts, independent of [py_sum]. *)
Fixpoint Qsum (l : list Q) : Q :=
  match l with
  | [] => 0
  | x :: r => x + Qsum r
  end.

(** ** Data model *)

(** The options of the "Category" select box (lines 68-80). *)
Inductive Category : Type :=
| Housing | Utilities | Transportation | Food | Insurance | DebtPayments
| Entertainment | Subscriptions | Healthcare | Savings | Other.

Definition expense_categories : list Category :=
  [Housing; Utilities; Transportation; Food; Insurance; DebtPayments;
   Entertainment; Subscriptions; Healthcare; Savings; Other].

Definition category_label (c : Category) : string :=
  match c with
  | Housing => "Housing (Rent/Mortgage)"
  | Utilities => "Utilities"
  | Transportation => "Transportation"
  | Food => "Food & Groceries"
  | Insurance => "Insurance"
  | DebtPayments => "Debt Payments"
  | Entertainment => "Entertainment"
  | Subscriptions => "Subscriptions"
  | Healthcare => "Healthcare"
  | Savings => "Savings"
  | Other => "Other"
  end%string.

(** The options of the "Priority" slider (line 85), in slider order. *)
Inductive Priority : Type := Low | Medium | High | Critical.

Definition priority_options : list Priority := [Low; Medium; High; Critical].

Definition priority_label (p : Priority) : string :=
  match p with
  | Low => "Low"
  | Medium => "Medium"
  | High => "High"
  | Critical => "Critical"
  end%string.

(** The dict appended by "Add Income" (lines 57-60). *)
Record income_entry : Type := mk_income {
  inc_name : string;
  inc_amount : Q
}.

(** The dict appended by "Add Expense" (lines 89-94). *)
Record expense_entry : Type := mk_expense {
  category : Category;
  name : string;
  amount : Q;
  priority : Priority
}.

(** [st.session_state]: the two lists of lines 38-41. *)
Record session_state : Type := mk_state {
  expenses : list expense_entry;
  income_sources : list income_entry
}.

(** The state of a fresh session (lines 38-41). *)
Definition initial_state : session_state :=
  {| expenses := []; income_sources := [] |}.

(** ** The sidebar handlers *)

(** The guard of both add buttons: [name and amount > 0]. *)
Definition add_guard (entry_name : string) (entry_amount : Q) : bool :=
  str_truthy entry_name && Qgt_bool entry_amount 0.

(** "Add Income" pressed (lines 55-62). *)
Definition add_income (income_name : string) (income_amount : Q)
    (st : session_state) : session_state :=
  if add_guard income_name income_amount then
    {| expenses := expenses st;
       income_sources :=
         income_sources st ++ [ {| inc_name := income_name;
                                   inc_amount := income_amount |} ] |}
  else st.

(** "Add Expense" pressed (lines 87-96). *)
Definition add_expense (expense_category : Category) (expense_name : string)
    (expense_amount : Q) (expense_priority : Priority)
    (st : session_state) : session_state :=
  if add_guard expense_name expense_amount then
    {| expenses :=
         expenses st ++ [ {| category := expense_category;
                             name := expense_name;
                             amount := expense_amount;
                             priority := expense_priority |} ];
       income_sources := income_sources st |}
  else st.

(** The two assignments of "Clear All Data" (lines 101-102), one at a time. *)
Definition set_expenses (l : list expense_entry) (st : session_state) :=
  {| expenses := l; income_sources := income_sources st |}.

Definition set_income_sources (l : list income_entry) (st : session_state) :=
  {| expenses := expenses st; income_sources := l |}.

(** "Clear All Data" pressed (lines 100-103): both assignments run before the
    script is rerun, and nothing is rendered from the state in between. *)
Definition clear_all (st : session_state) : session_state :=
  set_income_sources [] (set_expenses [] st).

(** One press of a sidebar button. *)
Inductive action : Type :=
| AddIncome (income_name : string) (income_amount : Q)
| AddExpense (expense_category : Category) (expense_name : string)
             (expense_amount : Q) (expense_priority : Priority)
| ClearAll.

Definition step (st : session_state) (a : action) : session_state :=
  match a with
  | AddIncome n x => add_income n x st
  | AddExpense c n x p => add_expense c n x p st
  | ClearAll => clear_all st
  end.

(** A session: the buttons pressed, in order, from some state. *)
Definition run (acts : list action) (st : session_state) : session_state :=
  fold_left step acts st.

(** A state the script can be in: reached from a fresh session. *)
Definition reachable (st : session_state) : Prop :=
  exists acts, st = run acts initial_state.

(** ** Totals (lines 109-111) *)

Definition total_income (st : session_state) : Q :=
  py_sum (map inc_amount (income_sources st)).

Definition total_expenses (st : session_state) : Q :=
  py_sum (map amount (expenses st)).

Definition remaining_balance (st : session_state) : Q :=
  total_income st - total_expenses st.

(** ** Sorting, as pandas does it on the small frames of the script *)

Section Sorting.
Context {A : Type} (leb : A -> A -> bool).

(** Insert [x] before the first element it is not greater than. *)
Fixpoint insert_sorted (x : A) (l : list A) : list A :=
  match l with
  | [] => [x]
  | y :: r => if leb x y then x :: y :: r else y :: insert_sorted x r
  end.

(** A stable sort: rows that compare equal keep their order. *)
Definition sort_by (l : list A) : list A := fold_right insert_sorted [] l.
End Sorting.

(** ** [DataFrame.groupby(column)['amount'].sum()] *)

Section GroupBy.
(** The grouping column takes its values among [options]; a value is the
    string [label k] in the frame. *)
Context {K : Type} (label : K -> string) (options : list K)
        (key : expense_entry -> K).

Definition key_eqb (a b : K) : bool := String.eqb (label a) (label b).

Definition label_leb (a b : K) : bool := String.leb (label a) (label b).

(** The rows of the frame whose column holds [k]. *)
Definition group_rows (k : K) (df : list expense_entry) : list expense_entry :=
  filter (fun e => key_eqb (key e) k) df.

(** The group keys: the values that occur in the frame, each once, sorted
    as strings (groupby's default [sort=True]). *)
Definition group_keys (df : list expense_entry) : list K :=
  filter (fun k => existsb (fun e => key_eqb (key e) k) df)
         (sort_by label_leb options).

(** One row per group: the key and the sum of the group's amounts. *)
Definition groupby_sum (df : list expense_entry) : list (K * Q) :=
  map (fun k => (k, py_sum (map amount (group_rows k df)))) (group_keys df).
End GroupBy.

(** [expenses_df.groupby('category')['amount'].sum()] (line 169). *)
Definition category_summary (df : list expense_entry) : list (Category * Q) :=
  groupby_sum category_label expense_categories category df.

(** [expenses_df.groupby('priority')['amount'].sum()] (lines 152, 178). *)
Definition priority_groupby (df : list expense_entry) : list (Priority * Q) :=
  groupby_sum priority_label priority_options priority df.

(** ** Tab 1: the text summary by priority (lines 150-157) *)

(** [sort_values(ascending=False)] on the sums: largest first. *)
Definition amount_desc_leb (a b : Priority * Q) : bool :=
  Qle_bool (snd b) (snd a).

Definition priority_summary_tab1 (df : list expense_entry) : list (Priority * Q) :=
  sort_by amount_desc_leb (priority_groupby df).

(** A bullet of the summary: priority, amount and its share in percent. *)
Record summary_line : Type := mk_line {
  line_priority : Priority;
  line_amount : Q;
  line_percentage : Q
}.

Definition tab1_lines (st : session_state) : option (list summary_line) :=
  if list_truthy (expenses st) then
    Some (map (fun row =>
                 {| line_priority := fst row;
                    line_amount := snd row;
                    line_percentage :=
                      if Qgt_bool (total_expenses st) 0
                      then snd row / total_expenses st * 100
                      else 0 |})
              (priority_summary_tab1 (expenses st)))
  else None.

(** ** Tab 2: the bar chart by priority (lines 178-183) *)

Definition priority_order : list Priority := [Critical; High; Medium; Low].

(** The code of a value in [pd.Categorical(..., categories=priority_order)]:
    its position in [priority_order]. *)
Fixpoint category_code (p : Priority) (cats : list Priority) : nat :=
  match cats with
  | [] => 0
  | q :: r =>
      if key_eqb priority_label q p then 0%nat else S (category_code p r)
  end.

Definition code_leb (a b : Priority * Q) : bool :=
  Nat.leb (category_code (fst a) priority_order)
          (category_code (fst b) priority_order).

(** [priority_summary.sort_values('priority')] on the categorical column. *)
Definition priority_summary_tab2 (df : list expense_entry) : list (Priority * Q) :=
  sort_by code_leb (priority_groupby df).

Record tab2_view : Type := mk_tab2 {
  pie_rows : list (Category * Q);
  bar_rows : list (Priority * Q)
}.

Definition tab2_charts (st : session_state) : option tab2_view :=
  if list_truthy (expenses st) then
    Some {| pie_rows := category_summary (expenses st);
            bar_rows := priority_summary_tab2 (expenses st) |}
  else None.

(** ** Tab 3: recommendations (lines 224-304) *)

(** The three boxes of "Your Budget Analysis". *)
Inductive budget_analysis : Type :=
| BudgetDeficit (shortfall : Q)
| LowSavingsRate (remaining target : Q)
| GoodBudgetHealth (remaining : Q).

(** The remark under the expense ratio. *)
Inductive spending_note : Type :=
| HighSpending
| HealthySpending.

Record recommendations : Type := mk_rec {
  needs_budget : Q;
  wants_budget : Q;
  savings_budget : Q;
  analysis : budget_analysis;
  expense_ratio : option (Q * option spending_note)
}.

Inductive tab3_view : Type :=
| Recommend (r : recommendations)
| AddIncomeInfo.

(** "Your Budget Analysis" (lines 264-292): the first branch that applies. *)
Definition analyse (balance savings : Q) : budget_analysis :=
  if Qlt_bool balance 0 then BudgetDeficit (Qabs balance)
  else if Qlt_bool balance savings then LowSavingsRate balance savings
  else GoodBudgetHealth balance.

(** The remark that follows the ratio (lines 299-302). *)
Definition note_for (ratio : Q) : option spending_note :=
  if Qgt_bool ratio 80 then Some HighSpending
  else if Qle_bool ratio 50 then Some HealthySpending
  else None.

(** The expense ratio analysis (lines 295-302). *)
Definition ratio_analysis (income spent : Q) : option (Q * option spending_note) :=
  if Qgt_bool spent 0 then
    let ratio := (spent / income) * 100 in
    Some (ratio, note_for ratio)
  else None.

Definition tab3 (st : session_state) : tab3_view :=
  if Qgt_bool (total_income st) 0 then
    let needs := total_income st * 0.50 in
    let wants := total_income st * 0.30 in
    let savings := total_income st * 0.20 in
    Recommend
      {| needs_budget := needs;
         wants_budget := wants;
         savings_budget := savings;
         analysis := analyse (remaining_balance st) savings;
         expense_ratio := ratio_analysis (total_income st) (total_expenses st) |}
  else AddIncomeInfo.

(** ** The dashboard (lines 128-343) *)

Record tabs : Type := mk_tabs {
  budget_breakdown : option (list summary_line);
  visualizations : option tab2_view;
  recommendation_tab : tab3_view
}.

Inductive dashboard_view : Type :=
| StartInfo
| Tabs (t : tabs).

Definition dashboard (st : session_state) : dashboard_view :=
  if Qeq_bool (total_income st) 0 && Nat.eqb (List.length (expenses st)) 0 then
    StartInfo
  else
    Tabs {| budget_breakdown := tab1_lines st;
            visualizations := tab2_charts st;
            recommendation_tab := tab3 st |}.

(** ** The queries of the aggregation engine, read off the dashboard *)

(** What the recommendations tab shows, when it shows recommendations. *)
Definition shown_recommendations (st : session_state) : option recommendations :=
  match dashboard st with
  | StartInfo => None
  | Tabs t =>
      match recommendation_tab t with
      | Recommend r => Some r
      | AddIncomeInfo => None
      end
  end.

Definition budgetRule502030 (st : session_state) : option (Q * Q * Q) :=
  option_map (fun r => (needs_budget r, wants_budget r, savings_budget r))
             (shown_recommendations st).

Definition healthAssessment (st : session_state) : option budget_analysis :=
  option_map analysis (shown_recommendations st).

Definition expenseRatio (st : session_state) : option (Q * option spending_note) :=
  match shown_recommendations st with
  | Some r => expense_ratio r
  | None => None
  end.

(** The rows shown for the priority grouping: the bullets of tab 1 and the
    bars of tab 2. *)
Definition shown_text_rows (st : session_state) : option (list Priority) :=
  match dashboard st with
  | StartInfo => None
  | Tabs t => option_map (map line_priority) (budget_breakdown t)
  end.

Definition shown_bar_rows (st : session_state) : option (list Priority) :=
  match dashboard st with
  | StartInfo => None
  | Tabs t => option_map (fun v => map fst (bar_rows v)) (visualizations t)
  end.

(** ** Vocabulary of the properties *)

(** A press of an add button whose guard holds. *)
Definition add_succeeds (a : action) : bool :=
  match a with
  | AddIncome n x => add_guard n x
  | AddExpense _ n x _ => add_guard n x
  | ClearAll => false
  end.

(** The entries a sequence of button presses asks to add. *)
Definition added_incomes (acts : list action) : list income_entry :=
  flat_map (fun a => match a with
                     | AddIncome n x => [ {| inc_name := n; inc_amount := x |} ]
                     | _ => []
                     end) acts.

Definition added_expenses (acts : list action) : list expense_entry :=
  flat_map (fun a => match a with
                     | AddExpense c n x p =>
                         [ {| category := c; name := n; amount := x; priority := p |} ]
                     | _ => []
                     end) acts.

(** An input the add buttons must turn down: no name, or no positive amount. *)
Definition invalid_input (entry_name : string) (entry_amount : Q) : Prop :=
  entry_name = EmptyString \/ entry_amount <= 0.

(** Every stored entry has a name and a strictly positive amount. *)
Definition income_ok (e : income_entry) : Prop :=
  inc_name e <> EmptyString /\ 0 < inc_amount e.

Definition expense_ok (e : expense_entry) : Prop :=
  name e <> EmptyString /\ 0 < amount e.

Definition store_invariant (st : session_state) : Prop :=
  Forall income_ok (income_sources st) /\ Forall expense_ok (expenses st).

(** The dashboard gives add-income guidance and no recommendation. *)
Definition shows_add_income_guidance (st : session_state) : Prop :=
  dashboard st = StartInfo \/
  exists t, dashboard st = Tabs t /\ recommendation_tab t = AddIncomeInfo.

(** The note that goes with a ratio: above 80 high spending, at most 50
    healthy spending, nothing in between. *)
Definition note_matches (ratio : Q) (note : option spending_note) : Prop :=
  (80 < ratio -> note = Some HighSpending) /\
  (ratio <= 50 -> note = Some HealthySpending) /\
  (~ 80 < ratio -> ~ ratio <= 50 -> note = None).

(** The expense-ratio property with the positivity of the income as its only
    condition. *)
Definition ratio_defined_whenever_income (st : session_state) : Prop :=
  (0 < total_income st ->
   exists ratio note,
     expenseRatio st = Some (ratio, note) /\
     ratio == total_expenses st / total_income st * 100 /\
     note_matches ratio note) /\
  (total_income st == 0 -> expenseRatio st = None).

(** [rows] follows the fixed display order: it is [order] with some
    priorities left out. *)
Fixpoint follows_order (rows order : list Priority) : bool :=
  match rows, order with
  | [], _ => true
  | _ :: _, [] => false
  | r :: rows', o :: order' =>
      if key_eqb priority_label r o then follows_order rows' order'
      else follows_order rows order'
  end.

Definition display_ordered (rows : list Priority) : bool :=
  follows_order rows [Critical; High; Medium; Low].

(** The display-order property for every view of the priority grouping. *)
Definition all_priority_rows_ordered (st : session_state) : Prop :=
  expenses st <> [] ->
  (exists rows, shown_text_rows st = Some rows /\ display_ordered rows = true) /\
  (exists rows, shown_bar_rows st = Some rows /\ display_ordered rows = true).

(** The priorities that occur among the expenses, in display order. *)
Definition priorities_present (df : list expense_entry) : list Priority :=
  filter (fun p => existsb (fun e => key_eqb priority_label (priority e) p) df)
         [Critical; High; Medium; Low].

(** ** The balance metric (lines 120-123) *)

(** The delta under "Remaining Balance": the share of the income that is
    left, in percent, or [None] for the text "N/A". *)
Definition balance_delta (st : session_state) : option Q :=
  if Qgt_bool (total_income st) 0
  then Some (remaining_balance st / total_income st * 100)
  else None.

(** ** Tab 1: the income list (lines 140-146) *)

(** One bullet per row of the income frame, in row order; [None] for the
    text "No income sources added yet". *)
Definition income_lines (st : session_state) : option (list (string * Q)) :=
  if list_truthy (income_sources st) then
    Some (map (fun row => (inc_name row, inc_amount row)) (income_sources st))
  else None.

(** ** Tab 2: the gauge of expenses against income (lines 197-218) *)

(** Python's [max(a, b)]: the first argument unless the second is greater. *)
Definition py_max (a b : Q) : Q := if Qgt_bool b a then b else a.

Record gauge_step : Type := mk_step {
  step_from : Q;
  step_to : Q;
  step_color : string
}.

Record gauge : Type := mk_gauge {
  gauge_value : Q;
  gauge_reference : Q;
  gauge_axis_max : Q;
  gauge_bar_color : string;
  gauge_steps : list gauge_step;
  gauge_threshold : Q
}.

Definition fig_gauge (st : session_state) : gauge :=
  {| gauge_value := total_expenses st;
     gauge_reference := total_income st;
     gauge_axis_max := py_max (total_income st * 1.2) (total_expenses st * 1.2);
     gauge_bar_color :=
       if Qgt_bool (total_expenses st) (total_income st)
       then "darkred" else "darkgreen";
     gauge_steps :=
       [ {| step_from := 0; step_to := total_income st * 0.5;
            step_color := "lightgreen" |};
         {| step_from := total_income st * 0.5; step_to := total_income st * 0.8;
            step_color := "yellow" |};
         {| step_from := total_income st * 0.8; step_to := total_income st;
            step_color := "orange" |};
         {| step_from := total_income st; step_to := total_income st * 1.5;
            step_color := "red" |} ];
     gauge_threshold := total_income st |}%string.

(** The gauge is drawn with the other charts of tab 2, when there are
    expenses and the tabs are shown. *)
Definition shown_gauge (st : session_state) : option gauge :=
  match dashboard st with
  | StartInfo => None
  | Tabs _ => if list_truthy (expenses st) then Some (fig_gauge st) else None
  end.

(** ** Tab 4: the names of the exported files (lines 322, 339) *)

(** The date [datetime.now()] reports. *)
Record date : Type := mk_date {
  year : nat;
  month : nat;
  day : nat
}.

Definition digit_char (n : nat) : ascii := ascii_of_nat (48 + n mod 10).

(** A number in two and in four decimal digits, padded with zeros. *)
Definition two_digits (n : nat) : string :=
  String (digit_char (Nat.div n 10)) (String (digit_char n) EmptyString).

Definition four_digits (n : nat) : string :=
  (two_digits (Nat.div n 100) ++ two_digits n)%string.

(** [strftime('%Y%m%d')]. *)
Definition strftime_Ymd (d : date) : string :=
  (four_digits (year d) ++ two_digits (month d) ++ two_digits (day d))%string.

Definition income_file_name (now : date) : string :=
  ("income_" ++ strftime_Ymd now ++ ".csv")%string.

Definition expenses_file_name (now : date) : string :=
  ("expenses_" ++ strftime_Ymd now ++ ".csv")%string.

(** A date of the calendar with a four-digit year. *)
Definition calendar_date (d : date) : Prop :=
  (10 * 100 <= year d < 100 * 100 /\ 1 <= month d <= 12 /\ 1 <= day d <= 31)%nat.

(** The income list as the page shows it: nothing while the start message
    stands in for the tabs (line 128), otherwise the list of tab 1. *)
Definition shown_income_lines (st : session_state)
  : option (option (list (string * Q))) :=
  match dashboard st with
  | StartInfo => None
  | Tabs _ => Some (income_lines st)
  end.

(** * The store and its sums on binary64 numbers *)

Module Binary64.

(** Python's [sum(iterable)] on floats: from [0], one rounded addition per
    element, from the left. *)
Definition py_sum (l : list float) : float := fold_left PrimFloat.add l 0%float.

(** The dict appended by "Add Income" (lines 57-60). *)
Record income_entry : Type := mk_income {
  inc_name : string;
  inc_amount : float
}.

(** The dict appended by "Add Expense" (lines 89-94). *)
Record expense_entry : Type := mk_expense {
  category : Category;
  name : string;
  amount : float;
  priority : Priority
}.

(** [st.session_state] (lines 38-41). *)
Record session_state : Type := mk_state {
  expenses : list expense_entry;
  income_sources : list income_entry
}.

Definition initial_state : session_state :=
  {| expenses := []; income_sources := [] |}.

(** The guard of both add buttons: [name and amount > 0]. *)
Definition add_guard (entry_name : string) (entry_amount : float) : bool :=
  str_truthy entry_name && PrimFloat.ltb 0%float entry_amount.

(** "Add Income" pressed (lines 55-62). *)
Definition add_income (income_name : string) (income_amount : float)
    (st : session_state) : session_state :=
  if add_guard income_name income_amount then
    {| expenses := expenses st;
       income_sources :=
         income_sources st ++ [ {| inc_name := income_name;
                                   inc_amount := income_amount |} ] |}
  else st.

(** "Add Expense" pressed (lines 87-96). *)
Definition add_expense (expense_category : Category) (expense_name : string)
    (expense_amount : float) (expense_priority : Priority)
    (st : session_state) : session_state :=
  if add_guard expense_name expense_amount then
    {| expenses :=
         expenses st ++ [ {| category := expense_category;
                             name := expense_name;
                             amount := expense_amount;
                             priority := expense_priority |} ];
       income_sources := income_sources st |}
  else st.

(** "Clear All Data" pressed (lines 100-103). *)
Definition clear_all (st : session_state) : session_state :=
  {| expenses := []; income_sources := [] |}.

Inductive action : Type :=
| AddIncome (income_name : string) (income_amount : float)
| AddExpense (expense_category : Category) (expense_name : string)
             (expense_amount : float) (expense_priority : Priority)
| ClearAll.

Definition step (st : session_state) (a : action) : session_state :=
  match a with
  | AddIncome n x => add_income n x st
  | AddExpense c n x p => add_expense c n x p st
  | ClearAll => clear_all st
  end.

Definition run (acts : list action) (st : session_state) : session_state :=
  fold_left step acts st.

(** Totals (lines 109-110). *)
Definition total_income (st : session_state) : float :=
  py_sum (map inc_amount (income_sources st)).

Definition total_expenses (st : session_state) : float :=
  py_sum (map amount (expenses st)).

(** [DataFrame.groupby(column)['amount'].sum()]: the keys that occur, sorted
    as strings, each with the sum of the amounts of its rows taken in row
    order. *)
Section GroupBy.
Context {K : Type} (label : K -> string) (options : list K)
        (key : expense_entry -> K).

Definition group_rows (k : K) (df : list expense_entry) : list expense_entry :=
  filter (fun e => key_eqb label (key e) k) df.

Definition group_keys (df : list expense_entry) : list K :=
  filter (fun k => existsb (fun e => key_eqb label (key e) k) df)
         (sort_by (label_leb label) options).

Definition groupby_sum (df : list expense_entry) : list (K * float) :=
  map (fun k => (k, py_sum (map amount (group_rows k df)))) (group_keys df).
End GroupBy.

(** Line 169. *)
Definition category_summary (df : list expense_entry) : list (Category * float) :=
  groupby_sum category_label expense_categories category df.

(** Lines 152 and 178. *)
Definition priority_groupby (df : list expense_entry) : list (Priority * float) :=
  groupby_sum priority_label priority_options priority df.

(** *** Vocabulary *)

Definition add_succeeds (a : action) : bool :=
  match a with
  | AddIncome n x => add_guard n x
  | AddExpense _ n x _ => add_guard n x
  | ClearAll => false
  end.

Definition added_incomes (acts : list action) : list income_entry :=
  flat_map (fun a => match a with
                     | AddIncome n x => [ {| inc_name := n; inc_amount := x |} ]
                     | _ => []
                     end) acts.

Definition added_expenses (acts : list action) : list expense_entry :=
  flat_map (fun a => match a with
                     | AddExpense c n x p =>
                         [ {| category := c; name := n; amount := x; priority := p |} ]
                     | _ => []
                     end) acts.





End Binary64.

(** ** Further vocabulary *)

(** A press of one of the two add buttons. *)
Definition is_add (a : action) : bool :=
  match a with
  | ClearAll => false
  | _ => true
  end.

(** The amount a summary shows for a key: that of its row, 0 without one. *)
Fixpoint row_amount {K : Type} (label : K -> string) (k : K)
    (rows : list (K * Q)) : Q :=
  match rows with
  | [] => 0
  | (k', v) :: r => if key_eqb label k' k then v else row_amount label k r
  end.

(** The analysis is the good-health box. *)
Definition is_good_health (a : option budget_analysis) : Prop :=
  exists remaining, a = Some (GoodBudgetHealth remaining).

(** The analysis is the deficit box. *)
Definition is_deficit (a : option budget_analysis) : Prop :=
  exists shortfall, a = Some (BudgetDeficit shortfall).

(** * Properties *)

(** ** Sums *)

Lemma fold_left_Qplus (l : list Q) (a : Q) :
  fold_left Qplus l a == a + Qsum l.
Proof.
  revert a. induction l as [| x l IH]; intros a; simpl.
  - ring.
  - rewrite IH. ring.
Qed.

Lemma py_sum_Qsum (l : list Q) : py_sum l == Qsum l.
Proof.
  unfold py_sum. rewrite fold_left_Qplus. ring.
Qed.

Lemma Qsum_app (l1 l2 : list Q) : Qsum (l1 ++ l2) == Qsum l1 + Qsum l2.
Proof.
  induction l1 as [| x l1 IH]; simpl.
  - ring.
  - rewrite IH. ring.
Qed.

Lemma Qsum_pos (l : list Q) :
  Forall (fun x => 0 < x) l -> l <> [] -> 0 < Qsum l.
Proof.
  induction 1 as [| x l Hx Hl IH]; intros Hne.
  - congruence.
  - simpl. destruct l as [| y l'].
    + simpl. rewrite Qplus_0_r. exact Hx.
    + apply Qlt_trans with (y := x + 0).
      * rewrite Qplus_0_r. exact Hx.
      * apply Qplus_lt_r. apply IH. discriminate.
Qed.

(** ** Guards *)

Lemma Qgt_bool_iff (a b : Q) : Qgt_bool a b = true <-> b < a.
Proof.
  unfold Qgt_bool. rewrite negb_true_iff, <- not_true_iff_false, Qle_bool_iff.
  split; [apply Qnot_le_lt | apply Qlt_not_le].
Qed.

Lemma Qgt_bool_false_iff (a b : Q) : Qgt_bool a b = false <-> a <= b.
Proof.
  unfold Qgt_bool. rewrite negb_false_iff. apply Qle_bool_iff.
Qed.

Lemma Qlt_bool_iff (a b : Q) : Qlt_bool a b = true <-> a < b.
Proof. apply Qgt_bool_iff. Qed.

Lemma Qlt_bool_false_iff (a b : Q) : Qlt_bool a b = false <-> b <= a.
Proof. apply Qgt_bool_false_iff. Qed.

Lemma str_truthy_iff (s : string) : str_truthy s = true <-> s <> EmptyString.
Proof.
  destruct s; simpl; split; congruence.
Qed.

Lemma add_guard_true_iff (n : string) (x : Q) :
  add_guard n x = true <-> n <> EmptyString /\ 0 < x.
Proof.
  unfold add_guard. rewrite andb_true_iff, str_truthy_iff, Qgt_bool_iff.
  reflexivity.
Qed.

Lemma add_guard_false_iff (n : string) (x : Q) :
  add_guard n x = false <-> invalid_input n x.
Proof.
  unfold add_guard, invalid_input.
  rewrite andb_false_iff, Qgt_bool_false_iff.
  destruct n; simpl; split; intros [H | H]; auto; discriminate.
Qed.

(** ** Sessions *)

Lemma run_cons (a : action) (acts : list action) (st : session_state) :
  run (a :: acts) st = run acts (step st a).
Proof. reflexivity. Qed.

Lemma run_app (acts1 acts2 : list action) (st : session_state) :
  run (acts1 ++ acts2) st = run acts2 (run acts1 st).
Proof. apply fold_left_app. Qed.

(** C2: in every state of the store remainingBalance is exactly totalIncome
    minus totalExpenses, and a session can reach a state where it is
    negative. *)
Theorem remaining_balance_is_difference :
  (forall st, remaining_balance st = total_income st - total_expenses st) /\
  (exists st, reachable st /\ remaining_balance st < 0).
Proof.
  split.
  - intros st. reflexivity.
  - exists (run [AddIncome "Salary" 1000; AddExpense Other "Misc" 1200 Low]
                initial_state).
    split.
    + eexists. reflexivity.
    + vm_compute. reflexivity.
Qed.

(** ** Validation at the add buttons *)

Lemma app_singleton_neq {A : Type} (l : list A) (x : A) : l ++ [x] <> l.
Proof.
  intros H. apply (f_equal (@List.length A)) in H.
  rewrite length_app in H. simpl in H. lia.
Qed.

(** C3: addIncome and addExpense leave the store as it is, appending nothing,
    exactly when the name is empty or the amount is not positive; on every
    other input each appends exactly one entry with the given fields and
    leaves the other collection alone. *)
Theorem add_rejects_exactly_invalid_input
    (st : session_state) (n : string) (x : Q) (c : Category) (p : Priority) :
  (invalid_input n x <-> add_income n x st = st) /\
  (invalid_input n x <-> add_expense c n x p st = st) /\
  (~ invalid_input n x ->
     add_income n x st =
       {| expenses := expenses st;
          income_sources := income_sources st ++ [mk_income n x] |} /\
     add_expense c n x p st =
       {| expenses := expenses st ++ [mk_expense c n x p];
          income_sources := income_sources st |}).
Proof.
  unfold add_income, add_expense.
  destruct (add_guard n x) eqn:G.
  - assert (Hvalid : ~ invalid_input n x).
    { intros Hin. apply add_guard_false_iff in Hin. congruence. }
    repeat split; try tauto.
    + intros H. exfalso. apply (f_equal income_sources) in H. simpl in H.
      exact (app_singleton_neq _ _ H).
    + intros H. exfalso. apply (f_equal expenses) in H. simpl in H.
      exact (app_singleton_neq _ _ H).
  - apply add_guard_false_iff in G. repeat split; tauto.
Qed.

Lemma add_rejects_exactly_invalid_input_witness :
  ~ invalid_input "Bonus" 100 /\
  add_income "Bonus" 100 initial_state =
    {| expenses := []; income_sources := [mk_income "Bonus" 100] |} /\
  add_expense Food "Bonus" 100 Low initial_state =
    {| expenses := [mk_expense Food "Bonus" 100 Low]; income_sources := [] |}.
Proof.
  assert (Hvalid : ~ invalid_input "Bonus" 100).
  { unfold invalid_input. intros [H | H].
    - discriminate.
    - vm_compute in H. apply H. reflexivity. }
  split.
  - exact Hvalid.
  - destruct (add_rejects_exactly_invalid_input
                initial_state "Bonus" 100 Food Low) as [_ [_ H]].
    destruct (H Hvalid) as [H1 H2]. split.
    + exact H1.
    + exact H2.
Defined.

(** ** The recommendations tab *)

Lemma dashboard_tabs_of_income (st : session_state) :
  0 < total_income st ->
  dashboard st =
  Tabs {| budget_breakdown := tab1_lines st;
          visualizations := tab2_charts st;
          recommendation_tab := tab3 st |}.
Proof.
  intros Hpos. unfold dashboard.
  destruct (Qeq_bool (total_income st) 0) eqn:E; [| reflexivity].
  apply Qeq_bool_eq in E. rewrite E in Hpos.
  exfalso. exact (Qlt_irrefl 0 Hpos).
Qed.

Lemma dashboard_tabs_of_expenses (st : session_state) :
  expenses st <> [] ->
  dashboard st =
  Tabs {| budget_breakdown := tab1_lines st;
          visualizations := tab2_charts st;
          recommendation_tab := tab3 st |}.
Proof.
  intros Hne. unfold dashboard.
  destruct (expenses st) as [| e l]; [congruence |].
  simpl. rewrite andb_false_r. reflexivity.
Qed.

Lemma shown_recommendations_of_income (st : session_state) :
  0 < total_income st ->
  shown_recommendations st =
  Some {| needs_budget := total_income st * 0.50;
          wants_budget := total_income st * 0.30;
          savings_budget := total_income st * 0.20;
          analysis := analyse (remaining_balance st) (total_income st * 0.20);
          expense_ratio :=
            ratio_analysis (total_income st) (total_expenses st) |}.
Proof.
  intros Hpos. unfold shown_recommendations.
  rewrite (dashboard_tabs_of_income st Hpos). simpl. unfold tab3.
  apply Qgt_bool_iff in Hpos. rewrite Hpos. reflexivity.
Qed.

Lemma no_recommendations_without_income (st : session_state) :
  ~ 0 < total_income st ->
  shown_recommendations st = None /\ shows_add_income_guidance st.
Proof.
  intros Hnp.
  assert (G : Qgt_bool (total_income st) 0 = false).
  { apply not_true_iff_false. rewrite Qgt_bool_iff. exact Hnp. }
  unfold shown_recommendations, shows_add_income_guidance.
  destruct (dashboard st) as [| t] eqn:D.
  - split; [reflexivity | left; reflexivity].
  - unfold dashboard in D.
    destruct (Qeq_bool (total_income st) 0 && Nat.eqb (List.length (expenses st)) 0);
      [discriminate |].
    injection D as <-. simpl. unfold tab3. rewrite G.
    split; [reflexivity |]. right. eexists. split; reflexivity.
Qed.

Lemma analyse_cases (balance savings : Q) :
  (balance < 0 -> analyse balance savings = BudgetDeficit (Qabs balance)) /\
  (0 <= balance -> balance < savings ->
     analyse balance savings = LowSavingsRate balance savings) /\
  (0 <= balance -> savings <= balance ->
     analyse balance savings = GoodBudgetHealth balance).
Proof.
  unfold analyse. repeat split.
  - intros H. apply Qlt_bool_iff in H. rewrite H. reflexivity.
  - intros H0 H1. apply Qlt_bool_false_iff in H0. apply Qlt_bool_iff in H1.
    rewrite H0, H1. reflexivity.
  - intros H0 H1. apply Qlt_bool_false_iff in H0. apply Qlt_bool_false_iff in H1.
    rewrite H0, H1. reflexivity.
Qed.

(** C4: with a positive totalIncome the assessment is exactly one of three
    tiers, tried in order: a deficit reporting the absolute shortfall when the
    balance is negative, a low savings rate when the balance lies from 0 up
    to, but not at, the 20% savings target, and good health otherwise; the
    three conditions exclude each other and one of them holds.  With a
    totalIncome of 0 there is no assessment. *)
Theorem health_assessment_tiers (st : session_state) :
  let balance := remaining_balance st in
  let target := total_income st * 0.20 in
  (0 < total_income st ->
     (balance < 0 ->
        healthAssessment st = Some (BudgetDeficit (Qabs balance))) /\
     (0 <= balance /\ balance < target ->
        healthAssessment st = Some (LowSavingsRate balance target)) /\
     (~ balance < 0 -> ~ (0 <= balance /\ balance < target) ->
        healthAssessment st = Some (GoodBudgetHealth balance) /\
        target <= balance) /\
     ((balance < 0 /\ ~ (0 <= balance /\ balance < target) /\ ~ target <= balance) \/
      (~ balance < 0 /\ (0 <= balance /\ balance < target) /\ ~ target <= balance) \/
      (~ balance < 0 /\ ~ (0 <= balance /\ balance < target) /\ target <= balance))) /\
  (total_income st == 0 -> healthAssessment st = None).
Proof.
  intros balance target. split.
  - intros Hpos.
    assert (Htarget : 0 < target).
    { unfold target. rewrite <- (Qmult_0_l 0.20).
      apply Qmult_lt_compat_r; [reflexivity | exact Hpos]. }
    unfold healthAssessment.
    rewrite (shown_recommendations_of_income st Hpos). simpl.
    fold balance. fold target.
    destruct (analyse_cases balance target) as [A1 [A2 A3]].
    repeat split.
    + intros H. rewrite (A1 H). reflexivity.
    + intros [H0 H1]. rewrite (A2 H0 H1). reflexivity.
    + destruct (Qlt_le_dec balance 0) as [L | L]; [contradiction |].
      destruct (Qlt_le_dec balance target) as [L' | L'].
      * exfalso. apply H0. split; assumption.
      * rewrite (A3 L L'). reflexivity.
    + destruct (Qlt_le_dec balance target) as [L' | L']; [| exact L'].
      destruct (Qlt_le_dec balance 0) as [L | L]; [contradiction |].
      exfalso. apply H0. split; assumption.
    + destruct (Qlt_le_dec balance 0) as [L | L].
      * left. repeat split.
        -- exact L.
        -- intros [H0 _]. exact (Qlt_not_le _ _ L H0).
        -- intros H. apply (Qlt_not_le _ _ L).
           apply Qle_trans with (y := target); [apply Qlt_le_weak, Htarget | exact H].
      * destruct (Qlt_le_dec balance target) as [L' | L'].
        -- right. left. repeat split.
           ++ apply Qle_not_lt, L.
           ++ exact L.
           ++ exact L'.
           ++ apply Qlt_not_le, L'.
        -- right. right. repeat split.
           ++ apply Qle_not_lt, L.
           ++ intros [_ H]. exact (Qlt_not_le _ _ H L').
           ++ exact L'.
  - intros Hzero. unfold healthAssessment.
    destruct (no_recommendations_without_income st) as [H _].
    + rewrite Hzero. apply Qlt_irrefl.
    + rewrite H. reflexivity.
Qed.

Lemma health_assessment_tiers_witness :
  0 < total_income
        (run [AddIncome "Salary" 1000; AddExpense Other "Misc" 1200 Low]
             initial_state) /\
  healthAssessment
    (run [AddIncome "Salary" 1000; AddExpense Other "Misc" 1200 Low]
         initial_state)
  = Some (BudgetDeficit
            (Qabs (remaining_balance
                     (run [AddIncome "Salary" 1000;
                           AddExpense Other "Misc" 1200 Low] initial_state)))).
Proof.
  assert (Hpos : 0 < total_income
                       (run [AddIncome "Salary" 1000;
                             AddExpense Other "Misc" 1200 Low] initial_state)).
  { reflexivity. }
  split.
  - exact Hpos.
  - destruct (health_assessment_tiers
                (run [AddIncome "Salary" 1000; AddExpense Other "Misc" 1200 Low]
                     initial_state)) as [H _].
    destruct (H Hpos) as [Hdeficit _].
    apply Hdeficit. reflexivity.
Defined.

(** The two worked examples of the assessment: a healthy budget and a
    deficit with its shortfall. *)
Example health_assessment_examples :
  healthAssessment
    (run [AddIncome "Salary" 5000;
          AddExpense Housing "Rent" 1500 Critical;
          AddExpense Food "Groceries" 400 High] initial_state)
  = Some (GoodBudgetHealth 3100) /\
  healthAssessment
    (run [AddIncome "Salary" 1000; AddExpense Other "Misc" 1200 Low]
         initial_state)
  = Some (BudgetDeficit 200).
Proof.
  split; vm_compute; reflexivity.
Qed.

(** C5: with a positive totalIncome T the 50/30/20 rule gives the targets
    0.50 T for needs, 0.30 T for wants and 0.20 T for savings; when T is not
    positive no allocation is computed and the dashboard gives add-income
    guidance in its place. *)
Theorem budget_rule_allocation (st : session_state) :
  (0 < total_income st ->
     budgetRule502030 st =
       Some (total_income st * 0.50, total_income st * 0.30,
             total_income st * 0.20)) /\
  (~ 0 < total_income st ->
     budgetRule502030 st = None /\ shows_add_income_guidance st).
Proof.
  unfold budgetRule502030. split.
  - intros Hpos. rewrite (shown_recommendations_of_income st Hpos). reflexivity.
  - intros Hnp. destruct (no_recommendations_without_income st Hnp) as [H G].
    rewrite H. split; [reflexivity | exact G].
Qed.

Lemma budget_rule_allocation_witness :
  0 < total_income (run [AddIncome "Salary" 5000] initial_state) /\
  budgetRule502030 (run [AddIncome "Salary" 5000] initial_state) =
    Some (5000 * 0.50, 5000 * 0.30, 5000 * 0.20).
Proof.
  assert (Hpos : 0 < total_income (run [AddIncome "Salary" 5000] initial_state)).
  { reflexivity. }
  split.
  - exact Hpos.
  - destruct (budget_rule_allocation (run [AddIncome "Salary" 5000] initial_state))
      as [H _].
    exact (H Hpos).
Defined.

(** ** The expense ratio *)

Lemma note_for_matches (ratio : Q) : note_matches ratio (note_for ratio).
Proof.
  unfold note_matches, note_for. repeat split.
  - intros H. apply Qgt_bool_iff in H. rewrite H. reflexivity.
  - intros H.
    assert (G : Qgt_bool ratio 80 = false).
    { apply Qgt_bool_false_iff. apply Qle_trans with (y := 50); [exact H |].
      discriminate. }
    rewrite G. apply Qle_bool_iff in H. rewrite H. reflexivity.
  - intros H1 H2.
    assert (G : Qgt_bool ratio 80 = false).
    { apply not_true_iff_false. rewrite Qgt_bool_iff. exact H1. }
    assert (L : Qle_bool ratio 50 = false).
    { apply not_true_iff_false. rewrite Qle_bool_iff. exact H2. }
    rewrite G, L. reflexivity.
Qed.

(** A note is shown exactly when the ratio is above 80 or at most 50. *)
Lemma note_for_shown_iff (ratio : Q) :
  note_for ratio <> None <-> 80 < ratio \/ ratio <= 50.
Proof.
  unfold note_for.
  destruct (Qgt_bool ratio 80) eqn:G.
  - apply Qgt_bool_iff in G. split; [intros _; left; exact G | discriminate].
  - destruct (Qle_bool ratio 50) eqn:L.
    + apply Qle_bool_iff in L. split; [intros _; right; exact L | discriminate].
    + split; [congruence |].
      intros [H | H].
      * apply Qgt_bool_iff in H. congruence.
      * apply Qle_bool_iff in H. congruence.
Qed.

(** C6, as stated, fails: with an income and no expense the recommendations
    tab shows neither a ratio nor a note, although the income is positive. *)
Lemma ratio_needs_expenses :
  ~ ratio_defined_whenever_income
      (run [AddIncome "Salary" 1000] initial_state).
Proof.
  intros [H _].
  destruct H as [ratio [note [Hshown _]]].
  - reflexivity.
  - vm_compute in Hshown. discriminate.
Qed.

(** C6, amended: when totalIncome and totalExpenses are both positive, the
    expense ratio is totalExpenses / totalIncome * 100, and a note goes with
    it exactly when it is above 80 (high spending) or at most 50 (healthy
    spending); when totalIncome is positive and totalExpenses is not, neither
    ratio nor note is shown; when totalIncome is not positive no ratio is
    computed and the dashboard gives add-income guidance in its place. *)
Theorem expense_ratio_when_income_and_expenses (st : session_state) :
  (0 < total_income st -> 0 < total_expenses st ->
     exists ratio note,
       expenseRatio st = Some (ratio, note) /\
       ratio = total_expenses st / total_income st * 100 /\
       note_matches ratio note /\
       (note <> None <-> 80 < ratio \/ ratio <= 50)) /\
  (0 < total_income st -> ~ 0 < total_expenses st -> expenseRatio st = None) /\
  (~ 0 < total_income st ->
     expenseRatio st = None /\ shows_add_income_guidance st).
Proof.
  unfold expenseRatio. repeat split.
  - intros Hinc Hexp. rewrite (shown_recommendations_of_income st Hinc). simpl.
    unfold ratio_analysis. apply Qgt_bool_iff in Hexp. rewrite Hexp.
    eexists. eexists. split; [reflexivity |]. split; [reflexivity |].
    split; [apply note_for_matches | apply note_for_shown_iff].
  - intros Hinc Hexp. rewrite (shown_recommendations_of_income st Hinc). simpl.
    unfold ratio_analysis.
    assert (G : Qgt_bool (total_expenses st) 0 = false).
    { apply not_true_iff_false. rewrite Qgt_bool_iff. exact Hexp. }
    rewrite G. reflexivity.
  - destruct (no_recommendations_without_income st H) as [Hn _].
    rewrite Hn. reflexivity.
  - destruct (no_recommendations_without_income st H) as [_ G]. exact G.
Qed.

Lemma expense_ratio_when_income_and_expenses_witness :
  0 < total_income
        (run [AddIncome "Salary" 1000; AddExpense Housing "Rent" 900 Critical]
             initial_state) /\
  0 < total_expenses
        (run [AddIncome "Salary" 1000; AddExpense Housing "Rent" 900 Critical]
             initial_state) /\
  exists ratio note,
    expenseRatio
      (run [AddIncome "Salary" 1000; AddExpense Housing "Rent" 900 Critical]
           initial_state) = Some (ratio, note) /\
    ratio == 90.
Proof.
  split; [reflexivity |]. split; [reflexivity |].
  destruct (expense_ratio_when_income_and_expenses
              (run [AddIncome "Salary" 1000;
                    AddExpense Housing "Rent" 900 Critical] initial_state))
    as [H _].
  destruct H as [ratio [note [Hshown [Hratio _]]]].
  - reflexivity.
  - reflexivity.
  - exists ratio, note. split; [exact Hshown |].
    rewrite Hratio. reflexivity.
Defined.

(** ** Sorting *)

Section SortingFacts.
Context {A : Type} (leb : A -> A -> bool).

Lemma insert_sorted_Permutation (x : A) (l : list A) :
  Permutation (insert_sorted leb x l) (x :: l).
Proof.
  induction l as [| y l IH]; simpl.
  - apply Permutation_refl.
  - destruct (leb x y).
    + apply Permutation_refl.
    + apply Permutation_trans with (l' := y :: x :: l).
      * apply perm_skip. exact IH.
      * apply perm_swap.
Qed.

Lemma sort_by_Permutation (l : list A) : Permutation (sort_by leb l) l.
Proof.
  induction l as [| x l IH]; simpl.
  - apply perm_nil.
  - apply Permutation_trans with (l' := x :: sort_by leb l).
    + apply insert_sorted_Permutation.
    + apply perm_skip. exact IH.
Qed.

Hypothesis leb_total : forall a b, leb a b = true \/ leb b a = true.
Hypothesis leb_trans :
  forall a b c, leb a b = true -> leb b c = true -> leb a c = true.

Lemma insert_sorted_sorted (x : A) (l : list A) :
  StronglySorted (fun a b => leb a b = true) l ->
  StronglySorted (fun a b => leb a b = true) (insert_sorted leb x l).
Proof.
  induction 1 as [| y l Hl IH Hy]; simpl.
  - constructor; constructor.
  - destruct (leb x y) eqn:E.
    + constructor.
      * constructor; assumption.
      * constructor; [exact E |].
        apply Forall_impl with (P := fun b => leb y b = true); [| exact Hy].
        intros b Hb. exact (leb_trans _ _ _ E Hb).
    + constructor; [exact IH |].
      apply (Permutation_Forall (Permutation_sym (insert_sorted_Permutation x l))).
      constructor; [| exact Hy].
      destruct (leb_total x y) as [H | H]; [congruence | exact H].
Qed.

Lemma sort_by_sorted (l : list A) :
  StronglySorted (fun a b => leb a b = true) (sort_by leb l).
Proof.
  induction l as [| x l IH]; simpl.
  - constructor.
  - apply insert_sorted_sorted. exact IH.
Qed.
End SortingFacts.

Lemma StronglySorted_weaken {A : Type} (R R' : A -> A -> Prop) (l : list A) :
  (forall a b, R a b -> R' a b) -> StronglySorted R l -> StronglySorted R' l.
Proof.
  intros HR. induction 1 as [| x l Hl IH Hx].
  - constructor.
  - constructor; [exact IH |].
    apply Forall_impl with (P := R x); [apply HR | exact Hx].
Qed.

Lemma amount_desc_leb_total (a b : Priority * Q) :
  amount_desc_leb a b = true \/ amount_desc_leb b a = true.
Proof.
  unfold amount_desc_leb. rewrite !Qle_bool_iff.
  destruct (Qlt_le_dec (snd a) (snd b)) as [H | H].
  - right. apply Qlt_le_weak, H.
  - left. exact H.
Qed.

Lemma amount_desc_leb_trans (a b c : Priority * Q) :
  amount_desc_leb a b = true -> amount_desc_leb b c = true ->
  amount_desc_leb a c = true.
Proof.
  unfold amount_desc_leb. rewrite !Qle_bool_iff.
  intros H1 H2. exact (Qle_trans _ _ _ H2 H1).
Qed.

(** The text summary lists the groups of the priority grouping, largest sum
    first. *)
Lemma priority_summary_tab1_sorted (df : list expense_entry) :
  Permutation (priority_summary_tab1 df) (priority_groupby df) /\
  StronglySorted (fun a b => snd b <= snd a) (priority_summary_tab1 df).
Proof.
  unfold priority_summary_tab1. split.
  - apply sort_by_Permutation.
  - apply StronglySorted_weaken
      with (R := fun a b => amount_desc_leb a b = true).
    + intros a b H. apply Qle_bool_iff. exact H.
    + apply sort_by_sorted.
      * exact amount_desc_leb_total.
      * exact amount_desc_leb_trans.
Qed.

(** ** Display order of the priority rows *)

(** groupby hands the priorities over sorted as strings. *)
Lemma priority_options_sorted :
  sort_by (label_leb priority_label) priority_options = [Critical; High; Low; Medium].
Proof. reflexivity. Qed.

Lemma category_options_sorted :
  sort_by (label_leb category_label) expense_categories =
  [DebtPayments; Entertainment; Food; Healthcare; Housing; Insurance;
   Other; Savings; Subscriptions; Transportation; Utilities].
Proof. vm_compute. reflexivity. Qed.

(** The bars are the priorities that occur, in the order of
    [priority_order]. *)
Lemma priority_summary_tab2_keys (df : list expense_entry) :
  map fst (priority_summary_tab2 df) = priorities_present df.
Proof.
  unfold priority_summary_tab2, priority_groupby, groupby_sum, group_keys,
    priorities_present.
  rewrite priority_options_sorted. simpl filter.
  destruct (existsb (fun e => key_eqb priority_label (priority e) Critical) df);
    destruct (existsb (fun e => key_eqb priority_label (priority e) High) df);
    destruct (existsb (fun e => key_eqb priority_label (priority e) Low) df);
    destruct (existsb (fun e => key_eqb priority_label (priority e) Medium) df);
    reflexivity.
Qed.

Lemma priorities_present_ordered (df : list expense_entry) :
  display_ordered (priorities_present df) = true.
Proof.
  unfold priorities_present. simpl filter.
  destruct (existsb (fun e => key_eqb priority_label (priority e) Critical) df);
    destruct (existsb (fun e => key_eqb priority_label (priority e) High) df);
    destruct (existsb (fun e => key_eqb priority_label (priority e) Medium) df);
    destruct (existsb (fun e => key_eqb priority_label (priority e) Low) df);
    reflexivity.
Qed.

Lemma existsb_Permutation {A : Type} (f : A -> bool) (l l' : list A) :
  Permutation l l' -> existsb f l = existsb f l'.
Proof.
  induction 1 as [| x l l' _ IH | x y l | l l' l'' _ IH1 _ IH2]; simpl.
  - reflexivity.
  - rewrite IH. reflexivity.
  - destruct (f x), (f y); reflexivity.
  - congruence.
Qed.

Lemma priorities_present_Permutation (df df' : list expense_entry) :
  Permutation df df' -> priorities_present df = priorities_present df'.
Proof.
  intros HP. unfold priorities_present. apply filter_ext. intros p.
  apply existsb_Permutation. exact HP.
Qed.

Lemma shown_bar_rows_of_expenses (st : session_state) :
  expenses st <> [] ->
  shown_bar_rows st = Some (priorities_present (expenses st)).
Proof.
  intros Hne. unfold shown_bar_rows.
  rewrite (dashboard_tabs_of_expenses st Hne). simpl. unfold tab2_charts.
  destruct (expenses st) as [| e l] eqn:E; [congruence |].
  simpl. rewrite priority_summary_tab2_keys. reflexivity.
Qed.

Lemma shown_text_rows_of_expenses (st : session_state) :
  expenses st <> [] ->
  shown_text_rows st = Some (map fst (priority_summary_tab1 (expenses st))).
Proof.
  intros Hne. unfold shown_text_rows.
  rewrite (dashboard_tabs_of_expenses st Hne). simpl. unfold tab1_lines.
  destruct (expenses st) as [| e l] eqn:E; [congruence |].
  simpl. rewrite map_map. reflexivity.
Qed.

(** C7, as stated, fails: with a large Low expense and a small Critical one
    the text summary puts Low above Critical. *)
Lemma text_rows_follow_the_sums :
  ~ all_priority_rows_ordered
      (run [AddExpense Other "Misc" 1200 Low;
            AddExpense Housing "Rent" 100 Critical] initial_state).
Proof.
  intros H. destruct H as [[rows [Hrows Hord]] _].
  - discriminate.
  - vm_compute in Hrows. injection Hrows as <-. discriminate.
Qed.

(** C7, amended: for every non-empty expense collection the bars of the
    priority chart are the priorities that occur, ordered Critical, High,
    Medium, Low, whatever the insertion order of the expenses; the bullets of
    the text summary are the same groups ordered by decreasing sum. *)
Theorem priority_rows_display_order (st : session_state) :
  expenses st <> [] ->
  (shown_bar_rows st = Some (priorities_present (expenses st)) /\
   display_ordered (priorities_present (expenses st)) = true /\
   (forall st', Permutation (expenses st) (expenses st') ->
      shown_bar_rows st' = shown_bar_rows st)) /\
  (exists rows,
     shown_text_rows st = Some (map fst rows) /\
     Permutation rows (priority_groupby (expenses st)) /\
     StronglySorted (fun a b => snd b <= snd a) rows).
Proof.
  intros Hne. split; [split; [| split] |].
  - apply shown_bar_rows_of_expenses, Hne.
  - apply priorities_present_ordered.
  - intros st' HP.
    assert (Hne' : expenses st' <> []).
    { intros E. rewrite E in HP. apply Permutation_sym, Permutation_nil in HP.
      contradiction. }
    rewrite (shown_bar_rows_of_expenses st Hne).
    rewrite (shown_bar_rows_of_expenses st' Hne').
    f_equal. apply priorities_present_Permutation, Permutation_sym, HP.
  - exists (priority_summary_tab1 (expenses st)). split.
    + apply shown_text_rows_of_expenses, Hne.
    + apply priority_summary_tab1_sorted.
Qed.

Lemma priority_rows_display_order_witness :
  expenses (run [AddExpense Other "Misc" 1200 Low;
                 AddExpense Housing "Rent" 100 Critical] initial_state) <> [] /\
  shown_bar_rows (run [AddExpense Other "Misc" 1200 Low;
                       AddExpense Housing "Rent" 100 Critical] initial_state)
  = Some [Critical; Low].
Proof.
  assert (Hne : expenses (run [AddExpense Other "Misc" 1200 Low;
                               AddExpense Housing "Rent" 100 Critical]
                              initial_state) <> []).
  { discriminate. }
  split.
  - exact Hne.
  - destruct (priority_rows_display_order
                (run [AddExpense Other "Misc" 1200 Low;
                      AddExpense Housing "Rent" 100 Critical] initial_state) Hne)
      as [[H _] _].
    exact H.
Defined.

(** ** The keys of a grouping *)

Section GroupByFacts.
Context {K : Type} (label : K -> string) (options : list K)
        (key : expense_entry -> K).

Hypothesis label_injective : forall a b, label a = label b -> a = b.
Hypothesis options_complete : forall k, In k options.
Hypothesis options_NoDup : NoDup options.

Lemma key_eqb_eq (a b : K) : key_eqb label a b = true <-> a = b.
Proof.
  unfold key_eqb. rewrite String.eqb_eq. split.
  - apply label_injective.
  - intros ->. reflexivity.
Qed.

End GroupByFacts.

Lemma category_label_injective (a b : Category) :
  category_label a = category_label b -> a = b.
Proof.
  destruct a, b; simpl; intros H; try reflexivity; discriminate H.
Qed.

Lemma priority_label_injective (a b : Priority) :
  priority_label a = priority_label b -> a = b.
Proof.
  destruct a, b; simpl; intros H; try reflexivity; discriminate H.
Qed.

Lemma expense_categories_complete (c : Category) : In c expense_categories.
Proof.
  destruct c; simpl; tauto.
Qed.

Lemma priority_options_complete (p : Priority) : In p priority_options.
Proof.
  destruct p; simpl; tauto.
Qed.

Lemma expense_categories_NoDup : NoDup expense_categories.
Proof.
  unfold expense_categories.
  repeat (constructor; [simpl; intuition discriminate |]).
  constructor.
Qed.

Lemma priority_options_NoDup : NoDup priority_options.
Proof.
  unfold priority_options.
  repeat (constructor; [simpl; intuition discriminate |]).
  constructor.
Qed.

(** The grouping of the worked example. *)
Example priority_groupby_example :
  priority_groupby
    [mk_expense Housing "Rent" 1500 Critical;
     mk_expense Food "Groceries" 400 High]
  = [(Critical, 1500); (High, 400)].
Proof. reflexivity. Qed.

(** ** Clearing the store *)

(** C9: clearAll is defined on every store and always leaves both
    collections empty, that is, the store of a fresh session; whatever was
    stored, no state with only one collection emptied is the outcome of the
    press; and afterwards the totals and the balance are 0, both groupings are
    empty, and the dashboard shows no breakdown, ratio, allocation or
    assessment. *)
Theorem clear_all_resets_everything (st : session_state) :
  clear_all st = initial_state /\
  step st ClearAll = initial_state /\
  expenses (clear_all st) = [] /\
  income_sources (clear_all st) = [] /\
  total_income (clear_all st) = 0 /\
  total_expenses (clear_all st) = 0 /\
  remaining_balance (clear_all st) = 0 /\
  category_summary (expenses (clear_all st)) = [] /\
  priority_groupby (expenses (clear_all st)) = [] /\
  dashboard (clear_all st) = StartInfo /\
  budgetRule502030 (clear_all st) = None /\
  healthAssessment (clear_all st) = None /\
  expenseRatio (clear_all st) = None /\
  shown_text_rows (clear_all st) = None /\
  shown_bar_rows (clear_all st) = None.
Proof.
  assert (H : clear_all st = initial_state) by reflexivity.
  simpl step. rewrite H. repeat split.
Qed.

(** ** The invariant of the store *)

Lemma store_invariant_initial : store_invariant initial_state.
Proof.
  split; constructor.
Qed.

Lemma store_invariant_step (st : session_state) (a : action) :
  store_invariant st -> store_invariant (step st a).
Proof.
  intros [Hinc Hexp]. destruct a as [n x | c n x p |]; simpl.
  - unfold add_income. destruct (add_guard n x) eqn:G; [| split; assumption].
    apply add_guard_true_iff in G. split; simpl; [| exact Hexp].
    apply Forall_app. split; [exact Hinc |].
    constructor; [exact G | constructor].
  - unfold add_expense. destruct (add_guard n x) eqn:G; [| split; assumption].
    apply add_guard_true_iff in G. split; simpl; [exact Hinc |].
    apply Forall_app. split; [exact Hexp |].
    constructor; [exact G | constructor].
  - exact store_invariant_initial.
Qed.

Lemma store_invariant_run (acts : list action) :
  forall st, store_invariant st -> store_invariant (run acts st).
Proof.
  induction acts as [| a acts IH]; intros st Hst.
  - exact Hst.
  - rewrite run_cons. apply IH, store_invariant_step, Hst.
Qed.

Lemma total_income_zero_iff_empty (st : session_state) :
  store_invariant st ->
  (total_income st == 0 <-> income_sources st = []).
Proof.
  intros [Hinc _]. unfold total_income. rewrite py_sum_Qsum. split.
  - intros Hzero. destruct (income_sources st) as [| e l] eqn:E; [reflexivity |].
    exfalso.
    assert (Hpos : 0 < Qsum (map inc_amount (e :: l))).
    { apply Qsum_pos; [| discriminate].
      apply Forall_map.
      apply Forall_impl with (P := income_ok); [| exact Hinc].
      intros e' [_ He']. exact He'. }
    rewrite Hzero in Hpos. exact (Qlt_irrefl 0 Hpos).
  - intros ->. reflexivity.
Qed.

(** C10: every entry the store ever holds has a non-empty name and a
    strictly positive amount: the fresh store satisfies this, both add
    buttons and clearAll keep it, so every reachable store satisfies it; and
    in a reachable store totalIncome is 0 exactly when there is no income
    entry. *)
Theorem stored_entries_are_positive :
  store_invariant initial_state /\
  (forall st n x, store_invariant st -> store_invariant (add_income n x st)) /\
  (forall st c n x p, store_invariant st ->
     store_invariant (add_expense c n x p st)) /\
  (forall st, store_invariant st -> store_invariant (clear_all st)) /\
  (forall st, reachable st ->
     store_invariant st /\
     (total_income st == 0 <-> income_sources st = [])).
Proof.
  split; [exact store_invariant_initial |].
  split; [intros st n x; apply (store_invariant_step st (AddIncome n x)) |].
  split; [intros st c n x p; apply (store_invariant_step st (AddExpense c n x p)) |].
  split; [intros st; apply (store_invariant_step st ClearAll) |].
  intros st [acts ->].
  assert (Hinv : store_invariant (run acts initial_state)).
  { apply store_invariant_run, store_invariant_initial. }
  split; [exact Hinv | apply total_income_zero_iff_empty, Hinv].
Qed.

Lemma stored_entries_are_positive_witness :
  reachable (run [AddIncome "Salary" 5000; AddIncome "Gift" 0;
                  AddExpense Food "Groceries" 400 High] initial_state) /\
  store_invariant (run [AddIncome "Salary" 5000; AddIncome "Gift" 0;
                        AddExpense Food "Groceries" 400 High] initial_state).
Proof.
  assert (Hreach : reachable
                     (run [AddIncome "Salary" 5000; AddIncome "Gift" 0;
                           AddExpense Food "Groceries" 400 High] initial_state)).
  { eexists. reflexivity. }
  split.
  - exact Hreach.
  - destruct stored_entries_are_positive as [_ [_ [_ [_ H]]]].
    destruct (H _ Hreach) as [Hinv _]. exact Hinv.
Defined.

(** * Further properties of the script *)

(** ** Sessions in general *)

Lemma py_sum_snoc (l : list Q) (x : Q) : py_sum (l ++ [x]) == py_sum l + x.
Proof.
  rewrite !py_sum_Qsum, Qsum_app. simpl. ring.
Qed.

Lemma run_adds_general (acts : list action) :
  forall st,
    forallb is_add acts = true ->
    run acts st =
    {| expenses := expenses st ++ added_expenses (filter add_succeeds acts);
       income_sources :=
         income_sources st ++ added_incomes (filter add_succeeds acts) |}.
Proof.
  induction acts as [| a acts IH]; intros st Hadds.
  - simpl. rewrite !app_nil_r. destruct st; reflexivity.
  - simpl in Hadds. apply andb_true_iff in Hadds as [Ha Hacts].
    rewrite run_cons, (IH _ Hacts).
    destruct a as [n x | c n x p |]; simpl in Ha; try discriminate; simpl.
    + unfold add_income. destruct (add_guard n x); simpl.
      * rewrite <- app_assoc. reflexivity.
      * reflexivity.
    + unfold add_expense. destruct (add_guard n x); simpl.
      * rewrite <- app_assoc. reflexivity.
      * reflexivity.
Qed.

(** X1: Presses of the add buttons only ever append: whatever the inputs, the
    store afterwards is the store before, untouched and in the same order,
    followed by the entries of the presses whose guard held, in the order of
    the presses; a press whose guard fails leaves no trace. *)
Theorem adds_only_append (acts : list action) (st : session_state) :
  forallb is_add acts = true ->
  income_sources (run acts st) =
    income_sources st ++ added_incomes (filter add_succeeds acts) /\
  expenses (run acts st) =
    expenses st ++ added_expenses (filter add_succeeds acts) /\
  firstn (List.length (income_sources st)) (income_sources (run acts st)) =
    income_sources st /\
  firstn (List.length (expenses st)) (expenses (run acts st)) = expenses st.
Proof.
  intros Hadds. rewrite (run_adds_general acts st Hadds). simpl.
  repeat split.
  - rewrite firstn_app, firstn_all, Nat.sub_diag. simpl. apply app_nil_r.
  - rewrite firstn_app, firstn_all, Nat.sub_diag. simpl. apply app_nil_r.
Qed.

Lemma adds_only_append_witness :
  forallb is_add [AddIncome "Salary" 5000; AddIncome "Gift" 0;
                  AddExpense Food "Groceries" 400 High] = true /\
  income_sources
    (run [AddIncome "Salary" 5000; AddIncome "Gift" 0;
          AddExpense Food "Groceries" 400 High]
         {| expenses := []; income_sources := [mk_income "Rent out" 300] |})
  = [mk_income "Rent out" 300; mk_income "Salary" 5000].
Proof.
  split.
  - reflexivity.
  - destruct (adds_only_append
                [AddIncome "Salary" 5000; AddIncome "Gift" 0;
                 AddExpense Food "Groceries" 400 High]
                {| expenses := []; income_sources := [mk_income "Rent out" 300] |})
      as [H _].
    + reflexivity.
    + exact H.
Defined.

(** X2: Whatever was entered before "Clear All Data" is forgotten: a session is
    the session of the presses after its last clear, on a fresh store. *)
Theorem history_before_clear_is_forgotten
    (before after : list action) (st : session_state) :
  run (before ++ ClearAll :: after) st = run after initial_state.
Proof.
  rewrite run_app, run_cons. reflexivity.
Qed.

(** ** How one press moves the totals *)

Lemma total_income_add_income (n : string) (x : Q) (st : session_state) :
  total_income (add_income n x st)
  == total_income st + (if add_guard n x then x else 0).
Proof.
  unfold add_income, total_income. destruct (add_guard n x); simpl.
  - rewrite map_app. simpl. apply py_sum_snoc.
  - ring.
Qed.

Lemma total_expenses_add_expense
    (c : Category) (n : string) (x : Q) (p : Priority) (st : session_state) :
  total_expenses (add_expense c n x p st)
  == total_expenses st + (if add_guard n x then x else 0).
Proof.
  unfold add_expense, total_expenses. destruct (add_guard n x); simpl.
  - rewrite map_app. simpl. apply py_sum_snoc.
  - ring.
Qed.

Lemma total_expenses_add_income (n : string) (x : Q) (st : session_state) :
  total_expenses (add_income n x st) = total_expenses st.
Proof.
  unfold add_income. destruct (add_guard n x); reflexivity.
Qed.

Lemma total_income_add_expense
    (c : Category) (n : string) (x : Q) (p : Priority) (st : session_state) :
  total_income (add_expense c n x p st) = total_income st.
Proof.
  unfold add_expense. destruct (add_guard n x); reflexivity.
Qed.

(** X3: an accepted income never lowers the total income or the remaining
    balance and leaves the total of the expenses as it is; an accepted expense
    never lowers the total of the expenses, never raises the remaining
    balance and leaves the total income as it is; a rejected press changes
    none of the three. *)
Theorem accepted_entries_move_the_balance_one_way
    (c : Category) (n : string) (x : Q) (p : Priority) (st : session_state) :
  (add_guard n x = true ->
     total_income st <= total_income (add_income n x st) /\
     total_expenses (add_income n x st) = total_expenses st /\
     remaining_balance st <= remaining_balance (add_income n x st) /\
     total_expenses st <= total_expenses (add_expense c n x p st) /\
     total_income (add_expense c n x p st) = total_income st /\
     remaining_balance (add_expense c n x p st) <= remaining_balance st) /\
  (add_guard n x = false ->
     add_income n x st = st /\ add_expense c n x p st = st).
Proof.
  split.
  - intros G. pose proof (proj1 (add_guard_true_iff n x) G) as [_ Hx].
    pose proof (total_income_add_income n x st) as Hi.
    pose proof (total_expenses_add_expense c n x p st) as He.
    rewrite G in Hi, He.
    pose proof (total_expenses_add_income n x st) as Hei.
    pose proof (total_income_add_expense c n x p st) as Hie.
    unfold remaining_balance. rewrite Hei, Hie.
    repeat split; try reflexivity; lra.
  - intros G. unfold add_income, add_expense. rewrite G. split; reflexivity.
Qed.

Lemma accepted_entries_move_the_balance_one_way_witness :
  add_guard "Bonus" 100 = true /\
  remaining_balance initial_state
  <= remaining_balance (add_income "Bonus" 100 initial_state).
Proof.
  split.
  - reflexivity.
  - destruct (accepted_entries_move_the_balance_one_way
                Food "Bonus" 100 Low initial_state) as [H _].
    destruct (H eq_refl) as [_ [_ [Hb _]]]. exact Hb.
Defined.

(** ** What a session can reach *)

Lemma reachable_invariant (st : session_state) :
  reachable st -> store_invariant st.
Proof.
  intros [acts ->]. apply store_invariant_run, store_invariant_initial.
Qed.

Lemma Qsum_nonneg (l : list Q) : Forall (fun x => 0 < x) l -> 0 <= Qsum l.
Proof.
  intros Hl. destruct l as [| x l'].
  - simpl. apply Qle_refl.
  - apply Qlt_le_weak, Qsum_pos; [exact Hl | discriminate].
Qed.

Lemma expense_amounts_positive (df : list expense_entry) :
  Forall expense_ok df -> Forall (fun x => 0 < x) (map amount df).
Proof.
  intros H. apply Forall_map.
  apply Forall_impl with (P := expense_ok); [| exact H].
  intros e [_ He]. exact He.
Qed.

Lemma income_amounts_positive (l : list income_entry) :
  Forall income_ok l -> Forall (fun x => 0 < x) (map inc_amount l).
Proof.
  intros H. apply Forall_map.
  apply Forall_impl with (P := income_ok); [| exact H].
  intros e [_ He]. exact He.
Qed.

Lemma total_expenses_zero_iff_empty (st : session_state) :
  store_invariant st ->
  (total_expenses st == 0 <-> expenses st = []).
Proof.
  intros [_ Hexp]. unfold total_expenses. rewrite py_sum_Qsum. split.
  - intros Hzero. destruct (expenses st) as [| e l] eqn:E; [reflexivity |].
    exfalso.
    assert (Hpos : 0 < Qsum (map amount (e :: l))).
    { apply Qsum_pos; [apply expense_amounts_positive, Hexp | discriminate]. }
    rewrite Hzero in Hpos. exact (Qlt_irrefl 0 Hpos).
  - intros ->. reflexivity.
Qed.

Lemma total_income_pos_iff (st : session_state) :
  store_invariant st -> (0 < total_income st <-> income_sources st <> []).
Proof.
  intros Hinv. split.
  - intros Hpos E. apply (total_income_zero_iff_empty st Hinv) in E.
    rewrite E in Hpos. exact (Qlt_irrefl 0 Hpos).
  - intros Hne. destruct Hinv as [Hinc _].
    unfold total_income. rewrite py_sum_Qsum.
    apply Qsum_pos; [apply income_amounts_positive, Hinc |].
    intros E. apply map_eq_nil in E. contradiction.
Qed.

Lemma total_expenses_pos_iff (st : session_state) :
  store_invariant st -> (0 < total_expenses st <-> expenses st <> []).
Proof.
  intros Hinv. split.
  - intros Hpos E. apply (total_expenses_zero_iff_empty st Hinv) in E.
    rewrite E in Hpos. exact (Qlt_irrefl 0 Hpos).
  - intros Hne. destruct Hinv as [_ Hexp].
    unfold total_expenses. rewrite py_sum_Qsum.
    apply Qsum_pos; [apply expense_amounts_positive, Hexp |].
    intros E. apply map_eq_nil in E. contradiction.
Qed.

(** X4: In every store a session can reach both totals are non-negative, the
    total of the expenses is 0 only when there is no expense, and the balance
    never exceeds the total income. *)
Theorem reachable_totals_are_nonnegative (st : session_state) :
  reachable st ->
  0 <= total_income st /\
  0 <= total_expenses st /\
  (total_expenses st == 0 <-> expenses st = []) /\
  remaining_balance st <= total_income st.
Proof.
  intros Hreach. pose proof (reachable_invariant st Hreach) as Hinv.
  assert (Hinc : 0 <= total_income st).
  { unfold total_income. rewrite py_sum_Qsum.
    apply Qsum_nonneg, income_amounts_positive, Hinv. }
  assert (Hexp : 0 <= total_expenses st).
  { unfold total_expenses. rewrite py_sum_Qsum.
    apply Qsum_nonneg, expense_amounts_positive, Hinv. }
  repeat split; try assumption.
  - apply (total_expenses_zero_iff_empty st Hinv).
  - apply (total_expenses_zero_iff_empty st Hinv).
  - unfold remaining_balance.
    rewrite <- (Qplus_0_r (total_income st)) at 2.
    unfold Qminus. apply Qplus_le_r.
    rewrite <- (Qopp_involutive 0). apply Qopp_le_compat. exact Hexp.
Qed.

Lemma reachable_totals_are_nonnegative_witness :
  reachable (run [AddExpense Other "Misc" 1200 Low] initial_state) /\
  0 <= total_expenses (run [AddExpense Other "Misc" 1200 Low] initial_state).
Proof.
  assert (Hreach : reachable (run [AddExpense Other "Misc" 1200 Low] initial_state)).
  { eexists. reflexivity. }
  split.
  - exact Hreach.
  - destruct (reachable_totals_are_nonnegative _ Hreach) as [_ [H _]]. exact H.
Defined.

(** X5: In a reachable store the start message replaces the tabs exactly when
    nothing has been entered; the recommendations are shown exactly when
    there is an income entry, the charts and the priority summary exactly
    when there is an expense, and the expense ratio exactly when there are
    both. *)
Theorem views_follow_the_collections (st : session_state) :
  reachable st ->
  (dashboard st = StartInfo <-> income_sources st = [] /\ expenses st = []) /\
  (shown_recommendations st <> None <-> income_sources st <> []) /\
  (shown_bar_rows st <> None <-> expenses st <> []) /\
  (shown_text_rows st <> None <-> expenses st <> []) /\
  (expenseRatio st <> None <-> income_sources st <> [] /\ expenses st <> []).
Proof.
  intros Hreach. pose proof (reachable_invariant st Hreach) as Hinv.
  pose proof (total_income_pos_iff st Hinv) as Hinc.
  pose proof (total_expenses_pos_iff st Hinv) as Hexp.
  assert (Hrec : shown_recommendations st <> None <-> income_sources st <> []).
  { rewrite <- Hinc. split.
    - intros Hshown. destruct (Qlt_le_dec 0 (total_income st)) as [H | H]; [exact H |].
      destruct (no_recommendations_without_income st (Qle_not_lt _ _ H)) as [Hn _].
      contradiction.
    - intros Hpos. rewrite (shown_recommendations_of_income st Hpos). discriminate. }
  split; [| split; [exact Hrec | split; [| split]]].
  - unfold dashboard. split.
    + intros H.
      destruct (Qeq_bool (total_income st) 0) eqn:E; simpl in H; [| discriminate].
      destruct (expenses st) as [| e l]; simpl in H; [| discriminate].
      split; [| reflexivity].
      apply (total_income_zero_iff_empty st Hinv). apply Qeq_bool_eq, E.
    + intros [Hi He]. unfold total_income. rewrite Hi, He. reflexivity.
  - split.
    + intros Hshown He. apply Hshown. unfold shown_bar_rows.
      destruct (dashboard st) eqn:D; [reflexivity |].
      unfold dashboard in D. rewrite He in D. simpl in D.
      destruct (Qeq_bool (total_income st) 0 && true); [discriminate |].
      injection D as <-. simpl. unfold tab2_charts. rewrite He. reflexivity.
    + intros Hne. rewrite (shown_bar_rows_of_expenses st Hne). discriminate.
  - split.
    + intros Hshown He. apply Hshown. unfold shown_text_rows.
      destruct (dashboard st) eqn:D; [reflexivity |].
      unfold dashboard in D. rewrite He in D. simpl in D.
      destruct (Qeq_bool (total_income st) 0 && true); [discriminate |].
      injection D as <-. simpl. unfold tab1_lines. rewrite He. reflexivity.
    + intros Hne. rewrite (shown_text_rows_of_expenses st Hne). discriminate.
  - unfold expenseRatio. split.
    + intros Hshown.
      destruct (shown_recommendations st) as [r |] eqn:R; [| congruence].
      assert (Hpos : 0 < total_income st).
      { apply Hinc, Hrec. discriminate. }
      rewrite (shown_recommendations_of_income st Hpos) in R.
      injection R as <-. simpl in Hshown. unfold ratio_analysis in Hshown.
      destruct (Qgt_bool (total_expenses st) 0) eqn:G; [| congruence].
      apply Qgt_bool_iff in G. split; [apply Hinc, Hpos | apply Hexp, G].
    + intros [Hi He]. apply Hinc in Hi. apply Hexp in He.
      rewrite (shown_recommendations_of_income st Hi). simpl.
      unfold ratio_analysis. apply Qgt_bool_iff in He. rewrite He. discriminate.
Qed.

Lemma views_follow_the_collections_witness :
  reachable (run [AddExpense Other "Misc" 1200 Low] initial_state) /\
  shown_recommendations (run [AddExpense Other "Misc" 1200 Low] initial_state)
  = None.
Proof.
  assert (Hreach : reachable (run [AddExpense Other "Misc" 1200 Low] initial_state)).
  { eexists. reflexivity. }
  split.
  - exact Hreach.
  - destruct (views_follow_the_collections _ Hreach) as [_ [H _]].
    destruct (shown_recommendations
                (run [AddExpense Other "Misc" 1200 Low] initial_state)) eqn:E.
    + exfalso. apply (proj1 H); [discriminate | reflexivity].
    + reflexivity.
Defined.

(** ** The recommendations agree with each other *)

Lemma ratio_times_income (income spent : Q) :
  0 < income -> spent / income * 100 * income == spent * 100.
Proof.
  intros Hpos. field. intros H. rewrite H in Hpos. exact (Qlt_irrefl 0 Hpos).
Qed.

Lemma ratio_above_iff (income spent c : Q) :
  0 < income -> (c < spent / income * 100 <-> c * income < spent * 100).
Proof.
  intros Hpos. rewrite <- (ratio_times_income income spent Hpos).
  symmetry. apply Qmult_lt_r. exact Hpos.
Qed.

Lemma ratio_at_most_iff (income spent c : Q) :
  0 < income -> (spent / income * 100 <= c <-> spent * 100 <= c * income).
Proof.
  intros Hpos. rewrite <- (ratio_times_income income spent Hpos).
  symmetry. apply Qmult_le_r. exact Hpos.
Qed.

Lemma analyse_good_iff (balance savings : Q) :
  0 < savings ->
  ((exists b, analyse balance savings = GoodBudgetHealth b) <-> savings <= balance).
Proof.
  intros Hs. unfold analyse.
  destruct (Qlt_bool balance 0) eqn:B0.
  - apply Qlt_bool_iff in B0. split.
    + intros [b H]. discriminate.
    + intros H. lra.
  - destruct (Qlt_bool balance savings) eqn:B1.
    + apply Qlt_bool_iff in B1. split.
      * intros [b H]. discriminate.
      * intros H. lra.
    + apply Qlt_bool_false_iff in B1. split.
      * intros _. exact B1.
      * intros _. eexists. reflexivity.
Qed.

Lemma analyse_deficit_iff (balance savings : Q) :
  (exists x, analyse balance savings = BudgetDeficit x) <-> balance < 0.
Proof.
  unfold analyse. destruct (Qlt_bool balance 0) eqn:B0.
  - apply Qlt_bool_iff in B0. split; [intros _; exact B0 |].
    intros _. eexists. reflexivity.
  - apply Qlt_bool_false_iff in B0. split.
    + intros [x H]. destruct (Qlt_bool balance savings); discriminate.
    + intros H. lra.
Qed.

Lemma healthAssessment_of_income (st : session_state) :
  0 < total_income st ->
  healthAssessment st =
  Some (analyse (remaining_balance st) (total_income st * 0.20)).
Proof.
  intros Hpos. unfold healthAssessment.
  rewrite (shown_recommendations_of_income st Hpos). reflexivity.
Qed.

Lemma expenseRatio_of_totals (st : session_state) :
  0 < total_income st -> 0 < total_expenses st ->
  expenseRatio st =
  Some (total_expenses st / total_income st * 100,
        note_for (total_expenses st / total_income st * 100)).
Proof.
  intros Hinc Hexp. unfold expenseRatio.
  rewrite (shown_recommendations_of_income st Hinc). simpl.
  unfold ratio_analysis. apply Qgt_bool_iff in Hexp. rewrite Hexp. reflexivity.
Qed.

Lemma is_good_health_iff (st : session_state) :
  0 < total_income st ->
  (is_good_health (healthAssessment st)
   <-> total_income st * 0.20 <= remaining_balance st).
Proof.
  intros Hpos. rewrite (healthAssessment_of_income st Hpos).
  rewrite <- analyse_good_iff by lra.
  unfold is_good_health. split; intros [b H]; exists b; congruence.
Qed.

(** X7: The praise for spending at most half of the income appears exactly when
    at least half of the income is left, and then the analysis is the
    good-health box. *)
Theorem healthy_spending_means_good_health (st : session_state) :
  0 < total_income st -> 0 < total_expenses st ->
  ((exists ratio, expenseRatio st = Some (ratio, Some HealthySpending))
   <-> total_income st * 0.5 <= remaining_balance st) /\
  ((exists ratio, expenseRatio st = Some (ratio, Some HealthySpending))
   -> is_good_health (healthAssessment st)).
Proof.
  intros Hinc Hexp.
  rewrite (expenseRatio_of_totals st Hinc Hexp), (is_good_health_iff st Hinc).
  unfold remaining_balance.
  pose proof (ratio_above_iff (total_income st) (total_expenses st) 80 Hinc) as Hhi.
  pose proof (ratio_at_most_iff (total_income st) (total_expenses st) 50 Hinc) as Hlo.
  unfold note_for.
  destruct (Qgt_bool (total_expenses st / total_income st * 100) 80) eqn:G.
  - apply Qgt_bool_iff in G. apply Hhi in G. split.
    + split.
      * intros [ratio H]. discriminate.
      * intros H. lra.
    + intros [ratio H]. discriminate.
  - destruct (Qle_bool (total_expenses st / total_income st * 100) 50) eqn:L.
    + apply Qle_bool_iff in L. apply Hlo in L. split.
      * split; [intros _; lra | intros _; eexists; reflexivity].
      * intros _. lra.
    + split.
      * split; [intros [ratio H]; discriminate |].
        intros H. exfalso.
        assert (L' : Qle_bool (total_expenses st / total_income st * 100) 50 = true).
        { apply Qle_bool_iff, Hlo. lra. }
        congruence.
      * intros [ratio H]. discriminate.
Qed.

Lemma healthy_spending_means_good_health_witness :
  is_good_health
    (healthAssessment
       (run [AddIncome "Salary" 5000; AddExpense Housing "Rent" 1500 Critical]
            initial_state)).
Proof.
  destruct (healthy_spending_means_good_health
              (run [AddIncome "Salary" 5000;
                    AddExpense Housing "Rent" 1500 Critical] initial_state))
    as [_ H].
  - reflexivity.
  - reflexivity.
  - apply H. eexists. reflexivity.
Defined.

(** X8: A reported deficit is the amount by which the expenses exceed the income,
    and it is positive; the deficit box appears exactly when the expenses
    exceed a positive income. *)
Theorem deficit_is_the_overspend (st : session_state) :
  0 < total_income st ->
  (is_deficit (healthAssessment st) <-> total_income st < total_expenses st) /\
  (forall shortfall,
     healthAssessment st = Some (BudgetDeficit shortfall) ->
     shortfall == total_expenses st - total_income st /\ 0 < shortfall).
Proof.
  intros Hinc. rewrite (healthAssessment_of_income st Hinc). split.
  - unfold is_deficit. split.
    + intros [x H]. injection H as H.
      assert (Hd : exists y, analyse (remaining_balance st) (total_income st * 0.20)
                             = BudgetDeficit y) by (exists x; exact H).
      apply analyse_deficit_iff in Hd. unfold remaining_balance in Hd. lra.
    + intros H.
      assert (Hd : remaining_balance st < 0) by (unfold remaining_balance; lra).
      apply (analyse_deficit_iff _ (total_income st * 0.20)) in Hd.
      destruct Hd as [x Hx]. exists x. rewrite Hx. reflexivity.
  - intros shortfall H. injection H as H. unfold analyse in H.
    destruct (Qlt_bool (remaining_balance st) 0) eqn:B0.
    + injection H as <-. apply Qlt_bool_iff in B0.
      rewrite (Qabs_neg (remaining_balance st)) by (apply Qlt_le_weak, B0).
      unfold remaining_balance in *. split; lra.
    + destruct (Qlt_bool (remaining_balance st) (total_income st * 0.20));
        discriminate.
Qed.

Lemma deficit_is_the_overspend_witness :
  0 < total_income
        (run [AddIncome "Salary" 1000; AddExpense Other "Misc" 1200 Low]
             initial_state) /\
  is_deficit
    (healthAssessment
       (run [AddIncome "Salary" 1000; AddExpense Other "Misc" 1200 Low]
            initial_state)).
Proof.
  split.
  - reflexivity.
  - destruct (deficit_is_the_overspend
                (run [AddIncome "Salary" 1000; AddExpense Other "Misc" 1200 Low]
                     initial_state)) as [H _].
    + reflexivity.
    + apply H. reflexivity.
Defined.

(** X10: The percentage under the balance is shown exactly when there is an
    income entry, for a store a session can reach, and it never exceeds
    100. *)
Theorem balance_delta_bounds (st : session_state) :
  reachable st ->
  (balance_delta st <> None <-> income_sources st <> []) /\
  (forall delta, balance_delta st = Some delta -> delta <= 100).
Proof.
  intros Hreach. pose proof (reachable_invariant st Hreach) as Hinv.
  unfold balance_delta. split.
  - rewrite <- (total_income_pos_iff st Hinv).
    destruct (Qgt_bool (total_income st) 0) eqn:G.
    + apply Qgt_bool_iff in G. split; [intros _; exact G | discriminate].
    + split; [congruence |].
      intros H. apply Qgt_bool_iff in H. congruence.
  - intros delta Hd.
    destruct (Qgt_bool (total_income st) 0) eqn:G; [| discriminate].
    apply Qgt_bool_iff in G. injection Hd as <-.
    assert (Hexp : 0 <= total_expenses st).
    { unfold total_expenses. rewrite py_sum_Qsum.
      apply Qsum_nonneg, expense_amounts_positive, Hinv. }
    apply Qmult_le_r with (z := total_income st); [exact G |].
    rewrite ratio_times_income by exact G.
    unfold remaining_balance. lra.
Qed.

Lemma balance_delta_bounds_witness :
  reachable (run [AddIncome "Salary" 1000] initial_state) /\
  balance_delta (run [AddIncome "Salary" 1000] initial_state) <> None.
Proof.
  assert (Hreach : reachable (run [AddIncome "Salary" 1000] initial_state)).
  { eexists. reflexivity. }
  split.
  - exact Hreach.
  - destruct (balance_delta_bounds _ Hreach) as [H _].
    apply H. discriminate.
Defined.

(** X11: whenever the 50/30/20 rule gives an allocation, the three budgets
    are ordered: the savings target is not negative and not above the wants
    budget, which is not above the needs budget, which is not above the
    income. *)
Theorem budget_shares_are_ordered (st : session_state) (n w s : Q) :
  budgetRule502030 st = Some (n, w, s) ->
  0 <= s /\ s <= w /\ w <= n /\ n <= total_income st.
Proof.
  unfold budgetRule502030. intros H.
  destruct (Qlt_le_dec 0 (total_income st)) as [Hpos | Hnp].
  - rewrite (shown_recommendations_of_income st Hpos) in H.
    injection H as <- <- <-. repeat split; lra.
  - destruct (no_recommendations_without_income st (Qle_not_lt _ _ Hnp)) as [Hn _].
    rewrite Hn in H. discriminate.
Qed.

Lemma budget_shares_are_ordered_witness :
  budgetRule502030 (run [AddIncome "Salary" 5000] initial_state)
    = Some (5000 * 0.50, 5000 * 0.30, 5000 * 0.20) /\
  5000 * 0.20 <= 5000 * 0.30.
Proof.
  assert (H : budgetRule502030 (run [AddIncome "Salary" 5000] initial_state)
              = Some (5000 * 0.50, 5000 * 0.30, 5000 * 0.20)) by reflexivity.
  split.
  - exact H.
  - destruct (budget_shares_are_ordered _ _ _ _ H) as [_ [Hsw _]]. exact Hsw.
Defined.

(** ** The groups of a summary *)

Section GroupFacts.
Context {K : Type} (label : K -> string) (options : list K)
        (key : expense_entry -> K).

Hypothesis label_injective : forall a b, label a = label b -> a = b.
Hypothesis options_complete : forall k, In k options.
Hypothesis options_NoDup : NoDup options.

Lemma group_keys_In (k : K) (df : list expense_entry) :
  In k (group_keys label options key df) <-> exists e, In e df /\ key e = k.
Proof.
  unfold group_keys. rewrite filter_In, existsb_exists. split.
  - intros [_ [e [He Hk]]]. exists e. split; [exact He |].
    apply (key_eqb_eq label label_injective). exact Hk.
  - intros [e [He Hk]]. split.
    + apply (Permutation_in k
               (Permutation_sym (sort_by_Permutation (label_leb label) options))).
      apply options_complete.
    + exists e. split; [exact He |].
      apply (key_eqb_eq label label_injective). exact Hk.
Qed.

Lemma group_keys_NoDup (df : list expense_entry) :
  NoDup (group_keys label options key df).
Proof.
  unfold group_keys. apply NoDup_filter.
  apply (Permutation_NoDup
           (Permutation_sym (sort_by_Permutation (label_leb label) options))).
  exact options_NoDup.
Qed.

Lemma groupby_sum_keys (df : list expense_entry) :
  map fst (groupby_sum label options key df) = group_keys label options key df.
Proof.
  unfold groupby_sum. rewrite map_map. simpl. apply map_id.
Qed.

Lemma group_rows_nonempty (k : K) (df : list expense_entry) :
  (exists e, In e df /\ key e = k) -> group_rows label key k df <> [].
Proof.
  intros [e [He Hk]] Hnil.
  assert (Hin : In e (group_rows label key k df)).
  { unfold group_rows. apply filter_In. split; [exact He |].
    apply (key_eqb_eq label label_injective). exact Hk. }
  rewrite Hnil in Hin. exact Hin.
Qed.

Lemma groupby_sum_positive (df : list expense_entry) (k : K) (v : Q) :
  Forall expense_ok df -> In (k, v) (groupby_sum label options key df) -> 0 < v.
Proof.
  intros Hok Hin. unfold groupby_sum in Hin.
  apply in_map_iff in Hin as [k' [Heq Hk']]. injection Heq as -> <-.
  rewrite py_sum_Qsum. apply Qsum_pos.
  - apply expense_amounts_positive. unfold group_rows.
    apply Forall_forall. intros e He. apply filter_In in He as [He _].
    rewrite Forall_forall in Hok. apply Hok, He.
  - intros E. apply map_eq_nil in E.
    apply (group_rows_nonempty k df); [| exact E].
    apply group_keys_In. exact Hk'.
Qed.

Lemma row_amount_map (v : K -> Q) (k : K) (keys : list K) :
  row_amount label k (map (fun k' => (k', v k')) keys)
  = if existsb (fun k' => key_eqb label k' k) keys then v k else 0.
Proof.
  induction keys as [| k' keys IH]; simpl.
  - reflexivity.
  - destruct (key_eqb label k' k) eqn:E; simpl.
    + apply (key_eqb_eq label label_injective) in E. subst k'. reflexivity.
    + exact IH.
Qed.

End GroupFacts.

Lemma StronglySorted_filter {A : Type} (R : A -> A -> Prop) (f : A -> bool)
    (l : list A) :
  StronglySorted R l -> StronglySorted R (filter f l).
Proof.
  induction 1 as [| x l Hl IH Hx]; simpl.
  - constructor.
  - destruct (f x); [| exact IH].
    constructor; [exact IH |].
    apply Forall_forall. intros y Hy. apply filter_In in Hy as [Hy _].
    rewrite Forall_forall in Hx. apply Hx, Hy.
Qed.

(** X12: The category summary behind the pie chart has exactly one row for each
    category that occurs among the expenses and none for the others, and its
    rows come in the alphabetical order of the category labels. *)
Theorem category_summary_rows (df : list expense_entry) :
  NoDup (map fst (category_summary df)) /\
  (forall c, In c (map fst (category_summary df))
             <-> exists e, In e df /\ category e = c) /\
  StronglySorted
    (fun a b => String.ltb (category_label a) (category_label b) = true)
    (map fst (category_summary df)).
Proof.
  unfold category_summary.
  rewrite (groupby_sum_keys category_label expense_categories category df).
  split; [| split].
  - apply group_keys_NoDup. exact expense_categories_NoDup.
  - intros c. apply group_keys_In.
    + exact category_label_injective.
    + exact expense_categories_complete.
  - unfold group_keys. apply StronglySorted_filter.
    rewrite category_options_sorted.
    repeat (constructor; [| repeat (constructor; [reflexivity |]); constructor]).
    constructor.
Qed.

(** X13: The priority grouping likewise has exactly one row for each priority
    that occurs among the expenses. *)
Theorem priority_groupby_rows (df : list expense_entry) :
  NoDup (map fst (priority_groupby df)) /\
  (forall p, In p (map fst (priority_groupby df))
             <-> exists e, In e df /\ priority e = p).
Proof.
  unfold priority_groupby.
  rewrite (groupby_sum_keys priority_label priority_options priority df).
  split.
  - apply group_keys_NoDup. exact priority_options_NoDup.
  - intros p. apply group_keys_In.
    + exact priority_label_injective.
    + exact priority_options_complete.
Qed.

(** X14: In a store a session can reach, every slice of the pie and every bar has
    a strictly positive amount. *)
Theorem group_sums_are_positive (st : session_state) :
  reachable st ->
  Forall (fun row => 0 < snd row) (category_summary (expenses st)) /\
  Forall (fun row => 0 < snd row) (priority_summary_tab2 (expenses st)).
Proof.
  intros Hreach. destruct (reachable_invariant st Hreach) as [_ Hok]. split.
  - apply Forall_forall. intros [c v] Hin. simpl.
    apply (groupby_sum_positive category_label expense_categories category
             category_label_injective expense_categories_complete
             (expenses st) c v Hok Hin).
  - apply Forall_forall. intros [p v] Hin. simpl.
    unfold priority_summary_tab2 in Hin.
    apply (Permutation_in _ (sort_by_Permutation code_leb _)) in Hin.
    apply (groupby_sum_positive priority_label priority_options priority
             priority_label_injective priority_options_complete
             (expenses st) p v Hok Hin).
Qed.

Lemma group_sums_are_positive_witness :
  reachable (run [AddExpense Other "Misc" 1200 Low;
                  AddExpense Housing "Rent" 100 Critical] initial_state) /\
  Forall (fun row => 0 < snd row)
         (category_summary
            (expenses (run [AddExpense Other "Misc" 1200 Low;
                            AddExpense Housing "Rent" 100 Critical]
                           initial_state))).
Proof.
  assert (Hreach : reachable (run [AddExpense Other "Misc" 1200 Low;
                                   AddExpense Housing "Rent" 100 Critical]
                                  initial_state)).
  { eexists. reflexivity. }
  split.
  - exact Hreach.
  - destruct (group_sums_are_positive _ Hreach) as [H _]. exact H.
Defined.

(** X15: The bars of tab 2 and the bullets of tab 1 show the same priority groups
    with the same sums; only their order differs. *)
Theorem priority_views_show_the_same_groups (df : list expense_entry) :
  Permutation (priority_summary_tab2 df) (priority_summary_tab1 df).
Proof.
  unfold priority_summary_tab2, priority_summary_tab1.
  apply Permutation_trans with (l' := priority_groupby df).
  - apply sort_by_Permutation.
  - apply Permutation_sym, sort_by_Permutation.
Qed.

Lemma group_keys_Permutation {K : Type} (label : K -> string) (options : list K)
    (key : expense_entry -> K) (df df' : list expense_entry) :
  Permutation df df' ->
  group_keys label options key df = group_keys label options key df'.
Proof.
  intros HP. unfold group_keys. apply filter_ext. intros k.
  apply existsb_Permutation. exact HP.
Qed.

(** X16: the rows of the summaries do not depend on the order in which the
    expenses were entered: after any reordering of the expenses the category
    summary has the same categories in the same order, and so have the
    priority grouping and the bars of the priority chart. *)
Theorem summary_rows_ignore_insertion_order (df df' : list expense_entry) :
  Permutation df df' ->
  map fst (category_summary df) = map fst (category_summary df') /\
  map fst (priority_groupby df) = map fst (priority_groupby df') /\
  map fst (priority_summary_tab2 df) = map fst (priority_summary_tab2 df').
Proof.
  intros HP. unfold category_summary, priority_groupby.
  rewrite !groupby_sum_keys, !priority_summary_tab2_keys.
  split; [| split].
  - apply group_keys_Permutation, HP.
  - apply group_keys_Permutation, HP.
  - apply priorities_present_Permutation, HP.
Qed.

Lemma summary_rows_ignore_insertion_order_witness :
  map fst (category_summary [mk_expense Food "Lunch" 12 Low;
                             mk_expense Housing "Rent" 900 Critical])
  = map fst (category_summary [mk_expense Housing "Rent" 900 Critical;
                               mk_expense Food "Lunch" 12 Low]).
Proof.
  apply (summary_rows_ignore_insertion_order
           [mk_expense Food "Lunch" 12 Low; mk_expense Housing "Rent" 900 Critical]
           [mk_expense Housing "Rent" 900 Critical; mk_expense Food "Lunch" 12 Low]).
  apply perm_swap.
Defined.

Section GroupUpdate.
Context {K : Type} (label : K -> string) (options : list K)
        (key : expense_entry -> K).

Hypothesis label_injective : forall a b, label a = label b -> a = b.
Hypothesis options_complete : forall k, In k options.

Lemma key_eqb_neq (a b : K) : a <> b -> key_eqb label a b = false.
Proof.
  intros Hne. apply not_true_iff_false. intros H.
  apply (key_eqb_eq label label_injective) in H. contradiction.
Qed.

Lemma group_rows_other (k : K) (e : expense_entry) (df : list expense_entry) :
  key e <> k ->
  group_rows label key k (df ++ [e]) = group_rows label key k df.
Proof.
  intros Hne. unfold group_rows. rewrite filter_app. simpl.
  rewrite (key_eqb_neq _ _ Hne). apply app_nil_r.
Qed.

Lemma present_other (k : K) (e : expense_entry) (df : list expense_entry) :
  key e <> k ->
  existsb (fun e' => key_eqb label (key e') k) (df ++ [e])
  = existsb (fun e' => key_eqb label (key e') k) df.
Proof.
  intros Hne. rewrite existsb_app. simpl.
  rewrite (key_eqb_neq _ _ Hne). rewrite !orb_false_r. reflexivity.
Qed.

Lemma existsb_key_filter (keep : K -> bool) (k : K) (keys : list K) :
  existsb (fun k' => key_eqb label k' k) (filter keep keys)
  = keep k && existsb (fun k' => key_eqb label k' k) keys.
Proof.
  induction keys as [| k' keys IH]; simpl.
  - rewrite andb_false_r. reflexivity.
  - destruct (key_eqb label k' k) eqn:E.
    + pose proof (proj1 (key_eqb_eq label label_injective k' k) E) as Hk.
      rewrite Hk in *. destruct (keep k) eqn:Hkeep; simpl.
      * rewrite E. reflexivity.
      * rewrite IH. try rewrite Hkeep. reflexivity.
    + destruct (keep k'); simpl.
      * rewrite E. simpl. exact IH.
      * exact IH.
Qed.

(** A row of another key shows the same amount after the append. *)
Lemma row_amount_other (k : K) (e : expense_entry) (df : list expense_entry) :
  key e <> k ->
  row_amount label k (groupby_sum label options key (df ++ [e]))
  = row_amount label k (groupby_sum label options key df).
Proof.
  intros Hne. unfold groupby_sum.
  rewrite !(row_amount_map label label_injective). unfold group_keys.
  rewrite !existsb_key_filter, (present_other k e df Hne),
    (group_rows_other k e df Hne).
  reflexivity.
Qed.

Lemma group_keys_after_append (k : K) (e : expense_entry) (df : list expense_entry) :
  In k (group_keys label options key (df ++ [e]))
  <-> k = key e \/ In k (group_keys label options key df).
Proof.
  rewrite !(group_keys_In label options key label_injective options_complete).
  split.
  - intros [e' [Hin Hk]]. apply in_app_or in Hin as [Hin | [-> | []]].
    + right. exists e'. split; assumption.
    + left. symmetry. exact Hk.
  - intros [-> | [e' [Hin Hk]]].
    + exists e. split; [apply in_or_app; right; left; reflexivity | reflexivity].
    + exists e'. split; [apply in_or_app; left; exact Hin | exact Hk].
Qed.
End GroupUpdate.

(** X17: an accepted expense touches only the rows of its own category and
    of its own priority: afterwards each summary has the rows it had and a row
    for the key of the new expense, and every row of another category or
    priority shows the very amount it showed before. *)
Theorem accepted_expense_touches_only_its_rows
    (c : Category) (n : string) (x : Q) (p : Priority) (st : session_state) :
  add_guard n x = true ->
  (forall c',
     In c' (map fst (category_summary (expenses (add_expense c n x p st))))
     <-> c' = c \/ In c' (map fst (category_summary (expenses st)))) /\
  (forall c', c' <> c ->
     row_amount category_label c'
       (category_summary (expenses (add_expense c n x p st)))
     = row_amount category_label c' (category_summary (expenses st))) /\
  (forall p',
     In p' (map fst (priority_groupby (expenses (add_expense c n x p st))))
     <-> p' = p \/ In p' (map fst (priority_groupby (expenses st)))) /\
  (forall p', p' <> p ->
     row_amount priority_label p'
       (priority_groupby (expenses (add_expense c n x p st)))
     = row_amount priority_label p' (priority_groupby (expenses st))).
Proof.
  intros G. unfold add_expense. rewrite G. simpl.
  unfold category_summary, priority_groupby.
  split; [| split; [| split]].
  - intros c'. rewrite !groupby_sum_keys.
    apply (group_keys_after_append category_label expense_categories category
             category_label_injective expense_categories_complete
             c' (mk_expense c n x p) (expenses st)).
  - intros c' Hne.
    apply (row_amount_other category_label expense_categories category
             category_label_injective c' (mk_expense c n x p) (expenses st)).
    simpl. congruence.
  - intros p'. rewrite !groupby_sum_keys.
    apply (group_keys_after_append priority_label priority_options priority
             priority_label_injective priority_options_complete
             p' (mk_expense c n x p) (expenses st)).
  - intros p' Hne.
    apply (row_amount_other priority_label priority_options priority
             priority_label_injective p' (mk_expense c n x p) (expenses st)).
    simpl. congruence.
Qed.

Lemma accepted_expense_touches_only_its_rows_witness :
  add_guard "Rent" 900 = true /\
  row_amount category_label Food
    (category_summary
       (expenses (add_expense Housing "Rent" 900 Critical
                    (add_expense Food "Lunch" 12 Low initial_state))))
  = row_amount category_label Food
      (category_summary (expenses (add_expense Food "Lunch" 12 Low initial_state))).
Proof.
  split.
  - reflexivity.
  - destruct (accepted_expense_touches_only_its_rows
                Housing "Rent" 900 Critical
                (add_expense Food "Lunch" 12 Low initial_state)) as [_ [H _]].
    + reflexivity.
    + apply H. discriminate.
Defined.

(** ** The gauge *)

Lemma py_max_bounds (a b : Q) : a <= py_max a b /\ b <= py_max a b.
Proof.
  unfold py_max. destruct (Qgt_bool b a) eqn:G.
  - apply Qgt_bool_iff in G. split; lra.
  - apply Qgt_bool_false_iff in G. split; lra.
Qed.

Lemma shown_gauge_inv (st : session_state) (g : gauge) :
  shown_gauge st = Some g -> g = fig_gauge st /\ expenses st <> [].
Proof.
  unfold shown_gauge. destruct (dashboard st); [discriminate |].
  destruct (expenses st) eqn:E; simpl; [discriminate |].
  intros H. injection H as <-. split; [reflexivity | discriminate].
Qed.

(** X19: The gauge is drawn exactly when there is an expense, and its bar is dark
    red exactly when the expenses exceed the income, which with a positive
    income is exactly when the analysis is the deficit box. *)
Theorem gauge_bar_agrees_with_analysis (st : session_state) :
  (shown_gauge st <> None <-> expenses st <> []) /\
  (forall g, shown_gauge st = Some g ->
     (gauge_bar_color g = "darkred"%string <-> remaining_balance st < 0) /\
     (0 < total_income st ->
        (gauge_bar_color g = "darkred"%string
         <-> is_deficit (healthAssessment st)))).
Proof.
  split.
  - split.
    + intros H. destruct (shown_gauge st) as [g |] eqn:G; [| congruence].
      apply (shown_gauge_inv st g G).
    + intros Hne. unfold shown_gauge.
      rewrite (dashboard_tabs_of_expenses st Hne).
      destruct (expenses st); [congruence | discriminate].
  - intros g Hg. destruct (shown_gauge_inv st g Hg) as [-> _]. simpl.
    assert (Hcolor : (if Qgt_bool (total_expenses st) (total_income st)
                      then "darkred"%string else "darkgreen"%string)
                     = "darkred"%string
                     <-> remaining_balance st < 0).
    { unfold remaining_balance.
      destruct (Qgt_bool (total_expenses st) (total_income st)) eqn:G.
      - apply Qgt_bool_iff in G. split; [intros _; lra | reflexivity].
      - apply Qgt_bool_false_iff in G. split; [discriminate | intros H; lra]. }
    split; [exact Hcolor |].
    intros Hpos. rewrite Hcolor, (healthAssessment_of_income st Hpos).
    rewrite <- (analyse_deficit_iff (remaining_balance st) (total_income st * 0.20)).
    unfold is_deficit. split; intros [x H]; exists x; congruence.
Qed.

Lemma gauge_bar_agrees_with_analysis_witness :
  exists g,
    shown_gauge (run [AddIncome "Salary" 1000; AddExpense Other "Misc" 1200 Low]
                     initial_state) = Some g /\
    gauge_bar_color g = "darkred"%string.
Proof.
  eexists. split.
  - reflexivity.
  - destruct (gauge_bar_agrees_with_analysis
                (run [AddIncome "Salary" 1000; AddExpense Other "Misc" 1200 Low]
                     initial_state)) as [_ H].
    destruct (H _ eq_refl) as [Hcolor _].
    apply Hcolor. reflexivity.
Defined.

(** X20: in a store a session can reach, the axis of the gauge reaches at
    least as far as the needle (the expenses) and as the threshold mark (the
    income); the four coloured zones start at 0, each begins where the one
    before ends, the third ends at the threshold, and none ends before it
    begins. *)
Theorem gauge_axis_covers_needle_and_threshold (st : session_state) (g : gauge) :
  reachable st ->
  shown_gauge st = Some g ->
  gauge_value g <= gauge_axis_max g /\
  gauge_threshold g <= gauge_axis_max g /\
  Forall (fun z => 0 <= step_from z /\ step_from z <= step_to z) (gauge_steps g) /\
  (exists a b d,
     map (fun z => (step_from z, step_to z)) (gauge_steps g)
     = [(0, a); (a, b); (b, gauge_threshold g); (gauge_threshold g, d)]).
Proof.
  intros Hreach Hg. pose proof (reachable_invariant st Hreach) as Hinv.
  destruct (shown_gauge_inv st g Hg) as [-> Hne]. simpl.
  assert (Hinc : 0 <= total_income st).
  { unfold total_income. rewrite py_sum_Qsum.
    apply Qsum_nonneg, income_amounts_positive, Hinv. }
  pose proof (proj2 (total_expenses_pos_iff st Hinv) Hne) as Hexp.
  destruct (py_max_bounds (total_income st * 1.2) (total_expenses st * 1.2))
    as [Ha Hb].
  split; [lra |]. split; [lra |]. split.
  - repeat (constructor; [simpl; split; lra |]). constructor.
  - eexists. eexists. eexists. reflexivity.
Qed.

Lemma gauge_axis_covers_needle_and_threshold_witness :
  exists g,
    shown_gauge (run [AddIncome "Salary" 1000;
                      AddExpense Housing "Rent" 900 Critical] initial_state)
    = Some g /\
    gauge_value g <= gauge_axis_max g.
Proof.
  eexists. split.
  - reflexivity.
  - eapply (gauge_axis_covers_needle_and_threshold
              (run [AddIncome "Salary" 1000;
                    AddExpense Housing "Rent" 900 Critical] initial_state)).
    + eexists. reflexivity.
    + reflexivity.
Defined.

(** ** The income list *)

Lemma dashboard_start_iff_empty (st : session_state) :
  store_invariant st ->
  (dashboard st = StartInfo <-> income_sources st = [] /\ expenses st = []).
Proof.
  intros Hinv. unfold dashboard. split.
  - intros H.
    destruct (Qeq_bool (total_income st) 0) eqn:E; simpl in H; [| discriminate].
    destruct (expenses st) as [| e l]; simpl in H; [| discriminate].
    split; [| reflexivity].
    apply (total_income_zero_iff_empty st Hinv). apply Qeq_bool_eq, E.
  - intros [Hi He]. unfold total_income. rewrite Hi, He. reflexivity.
Qed.

(** X21: with only add presses since the fresh store, the page shows no
    income list at all while nothing has been accepted, because the start
    message stands in for the tabs; once an expense but no income has been
    accepted it shows the "no income" text; and once an income has been
    accepted it shows one bullet per accepted income, in the order of entry,
    with the name and the amount as entered. *)
Theorem income_list_in_order_of_entry (acts : list action) :
  forallb is_add acts = true ->
  shown_income_lines (run acts initial_state) =
  match added_incomes (filter add_succeeds acts),
        added_expenses (filter add_succeeds acts) with
  | [], [] => None
  | [], _ :: _ => Some None
  | accepted, _ => Some (Some (map (fun e => (inc_name e, inc_amount e)) accepted))
  end.
Proof.
  intros Hadds.
  assert (Hinv : store_invariant (run acts initial_state)).
  { apply store_invariant_run, store_invariant_initial. }
  pose proof (dashboard_start_iff_empty _ Hinv) as Hstart.
  unfold shown_income_lines, income_lines.
  rewrite (run_adds_general acts initial_state Hadds) in *. simpl in *.
  destruct (added_incomes (filter add_succeeds acts)) as [| i li];
    destruct (added_expenses (filter add_succeeds acts)) as [| e le].
  - rewrite (proj2 Hstart (conj eq_refl eq_refl)). reflexivity.
  - destruct (dashboard _) eqn:D; [| reflexivity].
    destruct (proj1 Hstart eq_refl) as [_ D']. discriminate D'.
  - destruct (dashboard _) eqn:D; [| reflexivity].
    destruct (proj1 Hstart eq_refl) as [D' _]. discriminate D'.
  - destruct (dashboard _) eqn:D; [| reflexivity].
    destruct (proj1 Hstart eq_refl) as [D' _]. discriminate D'.
Qed.

Lemma income_list_in_order_of_entry_witness :
  shown_income_lines
    (run [AddIncome "Salary" 5000; AddIncome "Gift" 0;
          AddExpense Food "Groceries" 400 High; AddIncome "Freelance" 250]
         initial_state)
  = Some (Some [("Salary"%string, 5000); ("Freelance"%string, 250)]).
Proof.
  apply (income_list_in_order_of_entry
           [AddIncome "Salary" 5000; AddIncome "Gift" 0;
            AddExpense Food "Groceries" 400 High; AddIncome "Freelance" 250]).
  reflexivity.
Defined.

(** ** The names of the exported files *)

Lemma digit_char_inj (a b : nat) :
  digit_char a = digit_char b -> a mod 10 = b mod 10.
Proof.
  unfold digit_char. intros H. apply (f_equal nat_of_ascii) in H.
  assert (Ha : (a mod 10 < 10)%nat) by (apply Nat.mod_upper_bound; discriminate).
  assert (Hb : (b mod 10 < 10)%nat) by (apply Nat.mod_upper_bound; discriminate).
  revert H Ha Hb. generalize (a mod 10)%nat (b mod 10)%nat. intros x y H Hx Hy.
  rewrite !nat_ascii_embedding in H by lia. lia.
Qed.

Lemma last_two_digits (n : nat) :
  (n = 100 * (n / 100) + 10 * ((n / 10) mod 10) + n mod 10)%nat.
Proof.
  pose proof (Nat.div_mod_eq n 10) as H1.
  pose proof (Nat.div_mod_eq (n / 10) 10) as H2.
  rewrite Nat.Div0.div_div in H2. change (10 * 10)%nat with 100%nat in H2.
  revert H1 H2.
  generalize (n / 100)%nat ((n / 10) mod 10)%nat (n mod 10)%nat (n / 10)%nat.
  intros q2 d1 d0 q1 H1 H2. lia.
Qed.

Lemma two_digits_inj (a b : nat) :
  (a < 100)%nat -> (b < 100)%nat -> two_digits a = two_digits b -> a = b.
Proof.
  unfold two_digits. intros Ha Hb H. injection H as H1 H2.
  apply digit_char_inj in H1. apply digit_char_inj in H2.
  change ((a / 10) mod 10 = (b / 10) mod 10)%nat in H1.
  rewrite (last_two_digits a), (last_two_digits b).
  rewrite (Nat.div_small a 100), (Nat.div_small b 100) by assumption.
  rewrite H1, H2. reflexivity.
Qed.

Lemma four_digits_inj (a b : nat) :
  (a < 100 * 100)%nat -> (b < 100 * 100)%nat ->
  four_digits a = four_digits b -> a = b.
Proof.
  unfold four_digits, two_digits. cbn [append]. intros Ha Hb H.
  injection H as H1 H2 H3 H4.
  apply digit_char_inj in H1. apply digit_char_inj in H2.
  apply digit_char_inj in H3. apply digit_char_inj in H4.
  change ((a / 100 / 10) mod 10 = (b / 100 / 10) mod 10)%nat in H1.
  change ((a / 100) mod 10 = (b / 100) mod 10)%nat in H2.
  change ((a / 10) mod 10 = (b / 10) mod 10)%nat in H3.
  assert (Hhigh : (a / 100 = b / 100)%nat).
  { assert (Hqa : (a / 100 < 100)%nat)
      by (apply Nat.Div0.div_lt_upper_bound; lia).
    assert (Hqb : (b / 100 < 100)%nat)
      by (apply Nat.Div0.div_lt_upper_bound; lia).
    rewrite (last_two_digits (a / 100)), (last_two_digits (b / 100)).
    rewrite (Nat.div_small (a / 100) 100), (Nat.div_small (b / 100) 100)
      by assumption.
    rewrite H1, H2. reflexivity. }
  rewrite (last_two_digits a), (last_two_digits b).
  rewrite Hhigh, H3, H4. reflexivity.
Qed.

Lemma strftime_Ymd_inj (d d' : date) :
  calendar_date d -> calendar_date d' ->
  strftime_Ymd d = strftime_Ymd d' -> d = d'.
Proof.
  intros [Hy [Hm Hd]] [Hy' [Hm' Hd']].
  unfold strftime_Ymd, four_digits, two_digits. cbn [append]. intros H.
  injection H as H1 H2 H3 H4 H5 H6 H7 H8.
  assert (Hyear : year d = year d').
  { apply four_digits_inj; [lia | lia |].
    unfold four_digits, two_digits. cbn [append].
    apply (f_equal2 String H1), (f_equal2 String H2), (f_equal2 String H3),
      (f_equal2 String H4).
    reflexivity. }
  assert (Hmonth : month d = month d').
  { apply two_digits_inj; [lia | lia |]. unfold two_digits.
    apply (f_equal2 String H5), (f_equal2 String H6). reflexivity. }
  assert (Hday : day d = day d').
  { apply two_digits_inj; [lia | lia |]. unfold two_digits.
    apply (f_equal2 String H7), (f_equal2 String H8). reflexivity. }
  destruct d, d'. simpl in *. congruence.
Qed.

Lemma string_app_inv_head (p s s' : string) :
  (p ++ s = p ++ s')%string -> s = s'.
Proof.
  induction p as [| c p IH]; simpl; intros H.
  - exact H.
  - injection H as H. exact (IH H).
Qed.

(** X22: The name of an exported file tells the day of the export and the
    collection: on calendar dates with a four-digit year, two exports of the
    same collection have the same file name only on the same day, and an
    income file never has the name of an expenses file; the names have 19 and
    21 characters. *)
Theorem export_names_identify_day_and_collection (d d' : date) :
  calendar_date d -> calendar_date d' ->
  (income_file_name d = income_file_name d' -> d = d') /\
  (expenses_file_name d = expenses_file_name d' -> d = d') /\
  income_file_name d <> expenses_file_name d' /\
  String.length (income_file_name d) = 19%nat /\
  String.length (expenses_file_name d) = 21%nat.
Proof.
  intros Hd Hd'.
  assert (Hsuffix : forall s s' : string,
             (s ++ ".csv" = s' ++ ".csv")%string ->
             String.length s = 8%nat -> String.length s' = 8%nat -> s = s').
  { intros s s' H Hs Hs'.
    destruct s as [| c1 [| c2 [| c3 [| c4 [| c5 [| c6 [| c7 [| c8 [| c9 s]]]]]]]]];
      try discriminate Hs.
    destruct s' as [| e1 [| e2 [| e3 [| e4 [| e5 [| e6 [| e7 [| e8 [| e9 s']]]]]]]]];
      try discriminate Hs'.
    simpl in H. congruence. }
  assert (Hlen : forall x, String.length (strftime_Ymd x) = 8%nat).
  { intros x. reflexivity. }
  repeat split.
  - unfold income_file_name. intros H. apply string_app_inv_head in H.
    apply (strftime_Ymd_inj d d' Hd Hd').
    apply Hsuffix; [exact H | apply Hlen | apply Hlen].
  - unfold expenses_file_name. intros H. apply string_app_inv_head in H.
    apply (strftime_Ymd_inj d d' Hd Hd').
    apply Hsuffix; [exact H | apply Hlen | apply Hlen].
  - unfold income_file_name, expenses_file_name. cbn [append]. discriminate.
Qed.

Lemma export_names_identify_day_and_collection_witness :
  calendar_date (mk_date 2026 11 3) /\
  String.length (income_file_name (mk_date 2026 11 3)) = 19%nat.
Proof.
  assert (Hd : calendar_date (mk_date 2026 11 3)).
  { unfold calendar_date. simpl. lia. }
  split.
  - exact Hd.
  - destruct (export_names_identify_day_and_collection
                (mk_date 2026 11 3) (mk_date 2026 11 3) Hd Hd)
      as [_ [_ [_ [H _]]]].
    exact H.
Defined.

(** The file name of the worked date. *)
Example income_file_name_example :
  income_file_name (mk_date 2026 11 3) = "income_20261103.csv"%string.
Proof. vm_compute. reflexivity. Qed.

(** * The sums on binary64 numbers *)

(** ** Totals *)






(** ** Groups *)

Section Partition.
Context {A K : Type} (label : K -> string) (key : A -> K).

Hypothesis label_injective : forall a b, label a = label b -> a = b.




End Partition.






